(** * Container yard management: a shallow embedding of [app.py]

    The program is one Streamlit script.  Every user interaction re-runs the
    script from its first line: the prologue reloads the record table from
    [container_data.csv] (when that file exists), then the branch selected in
    the side bar runs.  The table lives in [st.session_state.data] (a pandas
    [DataFrame]) and is mirrored to the CSV file by [save_data].

    Modelling decisions, in one place:
    - a [DataFrame] with the five columns of the script is a list of rows
      ([ContainerRecord]); a cell holding NaN/NaT/None is [None];
    - calendar dates follow Python's [datetime.date] (proleptic Gregorian
      ordinal).  A table read from the file holds pandas Timestamps at
      midnight, the row of the form holds [datetime.date] objects; a table
      that holds both kinds is a frame of its own ([Appended]), written to
      the file with both texts of a date and not shown by [st.dataframe];
    - pandas computes means in binary64; here a mean is an exact rational
      ([Q]), and NaN is [None];
    - the CSV file is the table of its cell texts (the header line and the
      quoting of commas are not modelled), and [read_csv] is the reader with
      pandas' default missing-value tokens.  A column of texts that all look
      like numbers or truth values is re-typed by pandas; [read_csv] reads
      no such file;
    - the frames the session holds or a statement updates in place are
      objects with an address, so that an update in place is seen through
      every reference to the frame; an operation that returns a new frame
      allocates one. *)

From Stdlib Require Import ZArith List String Ascii Bool Lia.
From Stdlib Require Import QArith Qround.
From Stdlib Require Import DecimalString DecimalPos DecimalZ.
From Stdlib Require Import Sorting.Sorted Sorting.Permutation.
Import ListNotations.

Local Open Scope string_scope.
Local Open Scope Z_scope.

(** ** Calendar dates, after CPython's [datetime.py] *)

Module Date.

Record date := mkDate { year : Z; month : Z; day : Z }.

Definition eqb (a b : date) : bool :=
  (year a =? year b) && (month a =? month b) && (day a =? day b).

(** [_is_leap]: [year % 4 == 0 and (year % 100 != 0 or year % 400 == 0)] *)
Definition is_leap (y : Z) : bool :=
  (y mod 4 =? 0) && (negb (y mod 100 =? 0) || (y mod 400 =? 0)).

(** [_DAYS_IN_MONTH = [-1, 31, 28, 31, 30, 31, 30, 31, 31, 30, 31, 30, 31]] *)
Definition DAYS_IN_MONTH : list Z :=
  [-1; 31; 28; 31; 30; 31; 30; 31; 31; 30; 31; 30; 31].

(** [_DAYS_BEFORE_MONTH]: the running sum of the table above. *)
Definition DAYS_BEFORE_MONTH : list Z :=
  [-1; 0; 31; 59; 90; 120; 151; 181; 212; 243; 273; 304; 334].

Definition days_in_month (y m : Z) : Z :=
  if (m =? 2) && is_leap y then 29 else nth (Z.to_nat m) DAYS_IN_MONTH 0.

(** [_days_before_year]: [y = year - 1; y*365 + y//4 - y//100 + y//400] *)
Definition days_before_year (y : Z) : Z :=
  let y1 := y - 1 in y1 * 365 + y1 / 4 - y1 / 100 + y1 / 400.

(** [_days_before_month]: [_DAYS_BEFORE_MONTH[month] + (month > 2 and _is_leap(year))] *)
Definition days_before_month (y m : Z) : Z :=
  nth (Z.to_nat m) DAYS_BEFORE_MONTH 0 + (if (2 <? m) && is_leap y then 1 else 0).

(** [_ymd2ord] and [date.toordinal]: 0001-01-01 is day 1. *)
Definition toordinal (d : date) : Z :=
  days_before_year (year d) + days_before_month (year d) (month d) + day d.

(** The values a [datetime.date] can hold ([_check_date_fields]). *)
Definition valid (d : date) : bool :=
  (1 <=? year d) && (year d <=? 9999) &&
  (1 <=? month d) && (month d <=? 12) &&
  (1 <=? day d) && (day d <=? days_in_month (year d) (month d)).

(** [(b - a).days]: subtraction of dates is the difference of ordinals. *)
Definition sub_days (b a : date) : Z := toordinal b - toordinal a.

(** *** ISO text of a date, [YYYY-MM-DD] *)

Definition digit (n : Z) : ascii := ascii_of_nat (48 + Z.to_nat (n mod 10)).

Definition digit_val (c : ascii) : option Z :=
  let n := Z.of_nat (nat_of_ascii c) in
  if (48 <=? n) && (n <=? 57) then Some (n - 48) else None.

(** [date.isoformat]: ["%04d-%02d-%02d"]. *)
Definition isoformat (d : date) : string :=
  String (digit (year d / 1000)) (String (digit (year d / 100))
  (String (digit (year d / 10)) (String (digit (year d))
  (String "-"
  (String (digit (month d / 10)) (String (digit (month d))
  (String "-"
  (String (digit (day d / 10)) (String (digit (day d)) EmptyString))))))))).

Definition num2 (a b : ascii) : option Z :=
  match digit_val a, digit_val b with
  | Some x, Some y => Some (10 * x + y)
  | _, _ => None
  end.

Definition num4 (a b c d : ascii) : option Z :=
  match num2 a b, num2 c d with
  | Some x, Some y => Some (100 * x + y)
  | _, _ => None
  end.

(** Reading a date cell: only the ISO form that [isoformat] writes is
    modelled; any other text, and any text naming no calendar day, is
    [None]. *)
Definition fromisoformat (s : string) : option date :=
  match s with
  | String y1 (String y2 (String y3 (String y4 (String "-"
    (String m1 (String m2 (String "-"
    (String d1 (String d2 EmptyString))))))))) =>
      match num4 y1 y2 y3 y4, num2 m1 m2, num2 d1 d2 with
      | Some y, Some m, Some d =>
          let r := mkDate y m d in if valid r then Some r else None
      | _, _, _ => None
      end
  | _ => None
  end.

(** *** Timestamps

    [pd.to_datetime(datetime.today())] is the current instant; a date cell
    read by [read_csv(parse_dates=...)] is the instant at midnight.  Both are
    counted in microseconds since 1970-01-01 (ordinal 719163). *)

Definition US_PER_DAY : Z := 86400000000.

Record datetime := mkDatetime { dt_date : date; dt_micro : Z }.

Definition valid_datetime (n : datetime) : bool :=
  valid (dt_date n) && (0 <=? dt_micro n) && (dt_micro n <? US_PER_DAY).

Definition timestamp_of_date (d : date) : Z :=
  (toordinal d - 719163) * US_PER_DAY.

Definition timestamp (n : datetime) : Z :=
  timestamp_of_date (dt_date n) + dt_micro n.

End Date.

Import Date.

(** ** The record table *)

(** One row of [st.session_state.data].  The columns are those of the
    [DataFrame] built at the top of the script. *)
Record ContainerRecord := mkRecord {
  customer_name : option string;
  container_id : option string;
  arrival_date : option date;
  delivery_date : option date;
  days_to_deliver : option Z
}.

Definition DataFrame := list ContainerRecord.

(** [pd.DataFrame(columns=[...])]: the table with no rows. *)
Definition empty_frame : DataFrame := [].

(** [calculate_days(arrival, delivery)]:
    [if pd.isna(delivery): return None] and otherwise
    [(delivery - arrival).days]. *)
Definition calculate_days (arrival : date) (delivery : option date) : option Z :=
  match delivery with
  | None => None
  | Some d => Some (sub_days d arrival)
  end.

(** ** The CSV file *)

Module Csv.

(** A file is the list of its data lines, a line the list of its cells. *)
Definition line := list string.
Definition file := list line.

(** [na_rep=''] of [to_csv]: a missing cell is written as the empty text. *)
Definition text_cell (v : option string) : string :=
  match v with Some s => s | None => EmptyString end.

(** A cell of a date column that is typed as a whole: a [datetime64]
    column with every time at midnight, or a column holding only
    [datetime.date] values.  Both are written as [YYYY-MM-DD]. *)
Definition date_cell (v : option date) : string :=
  match v with Some d => isoformat d | None => EmptyString end.

(** A Timestamp in a column that also holds [datetime.date] values: such a
    column has dtype [object], and [to_csv] writes [str] of each cell, which
    for a Timestamp at midnight is [YYYY-MM-DD 00:00:00]. *)
Definition timestamp_cell (v : option date) : string :=
  match v with
  | Some d => isoformat d ++ " 00:00:00"
  | None => EmptyString
  end.

(** [str] of a Python integer. *)
Definition str_int (z : Z) : string := NilZero.string_of_int (Z.to_int z).

Definition isna {A} (v : option A) : bool :=
  match v with None => true | Some _ => false end.

(** A numeric column holding a missing value is a float64 column, and its
    numbers are written as [2.0]; otherwise they are written as [2]. *)
Definition number_cell (float_col : bool) (v : option Z) : string :=
  match v with
  | None => EmptyString
  | Some z => if float_col then str_int z ++ ".0" else str_int z
  end.

Definition to_line (float_col : bool) (r : ContainerRecord) : line :=
  [ text_cell (customer_name r); text_cell (container_id r);
    date_cell (arrival_date r); date_cell (delivery_date r);
    number_cell float_col (days_to_deliver r) ].

(** [DataFrame.to_csv(index=False)] of a table whose date columns are
    typed as a whole. *)
Definition to_csv (df : DataFrame) : file :=
  map (to_line (existsb (fun r => isna (days_to_deliver r)) df)) df.

(** A row of Timestamps in a table that also has rows of [datetime.date]
    values. *)
Definition to_line_object (float_col : bool) (r : ContainerRecord) : line :=
  [ text_cell (customer_name r); text_cell (container_id r);
    timestamp_cell (arrival_date r); timestamp_cell (delivery_date r);
    number_cell float_col (days_to_deliver r) ].

(** [DataFrame.to_csv(index=False)] of the table [pd.concat] makes of rows
    read from the file ([old], Timestamps) and rows of the form ([new],
    [datetime.date] values). *)
Definition to_csv_appended (old new : DataFrame) : file :=
  let float_col := existsb (fun r => isna (days_to_deliver r)) (old ++ new) in
  (map (to_line_object float_col) old ++ map (to_line float_col) new)%list.

(** The texts [read_csv] takes for a missing value when [na_values] and
    [keep_default_na] are left at their defaults. *)
Definition NA_VALUES : list string :=
  [ EmptyString; "#N/A"; "#N/A N/A"; "#NA"; "-1.#IND"; "-1.#QNAN"; "-NaN";
    "-nan"; "1.#IND"; "1.#QNAN"; "<NA>"; "N/A"; "NA"; "NULL"; "NaN"; "None";
    "n/a"; "nan"; "null" ].

Definition is_na_value (s : string) : bool :=
  existsb (String.eqb s) NA_VALUES.

(** A cell of a text column that [read_csv] leaves as text. *)
Definition read_text (s : string) : option string :=
  if is_na_value s then None else Some s.

(** The characters a written number is made of, besides the letters of
    [inf], [infinity] and [nan]. *)
Definition number_char (c : ascii) : bool :=
  let n := nat_of_ascii c in
  ((48 <=? n)%nat && (n <=? 57)%nat) ||
  existsb (Ascii.eqb c) ["+"; "-"; "."; "e"; "E"; " "; "009"]%char.

Definition lower (c : ascii) : ascii :=
  let n := nat_of_ascii c in
  if ((65 <=? n)%nat && (n <=? 90)%nat)%bool then ascii_of_nat (n + 32) else c.

(** A text without its number characters, in lower case. *)
Fixpoint letters (s : string) : string :=
  match s with
  | EmptyString => EmptyString
  | String c s' =>
      if number_char c then letters s' else String (lower c) (letters s')
  end.

(** The texts [read_csv] may take for a number or a truth value: those made
    of number characters around nothing, [inf], [infinity] or [nan], and the
    spellings of [true] and [false].  (More texts than pandas converts: a text
    that is not of this kind is never converted.) *)
Definition number_like (s : string) : bool :=
  existsb (String.eqb (letters s))
          [EmptyString; "inf"; "infinity"; "nan"; "tru"; "fals"].

(** [read_csv] infers the type of a column from all its cells: a column
    stays text when some cell that is no missing value is not number-like;
    a column of missing values alone comes back all missing. *)
Definition keeps_text (cells : list string) : bool :=
  forallb is_na_value cells ||
  existsb (fun s => negb (is_na_value s) && negb (number_like s)) cells.

(** A date column named in [parse_dates]: [Some None] is NaT; the outer
    [None] is a text the model does not read as a date. *)
Definition read_date (s : string) : option (option date) :=
  if is_na_value s then Some None
  else match fromisoformat s with
       | Some d => Some (Some d)
       | None => None
       end.

(** Drops a final [.0], the way a float cell holding an integer is written. *)
Fixpoint strip_dot_zero (s : string) : string :=
  if String.eqb s ".0" then EmptyString
  else match s with
       | EmptyString => EmptyString
       | String c s' => String c (strip_dot_zero s')
       end.

Definition read_int (s : string) : option Z :=
  option_map Z.of_int (NilZero.int_of_string s).

(** The [days_to_deliver] column: integers, or floats holding integers. *)
Definition read_number (s : string) : option (option Z) :=
  if is_na_value s then Some None
  else match read_int (strip_dot_zero s) with
       | Some z => Some (Some z)
       | None => None
       end.

Definition read_line (l : line) : option ContainerRecord :=
  match l with
  | [n; i; a; d; k] =>
      match read_date a, read_date d, read_number k with
      | Some a', Some d', Some k' =>
          Some (mkRecord (read_text n) (read_text i) a' d' k')
      | _, _, _ => None
      end
  | _ => None
  end.

Fixpoint read_lines (f : file) : option DataFrame :=
  match f with
  | [] => Some []
  | l :: f' =>
      match read_line l, read_lines f' with
      | Some r, Some df => Some (r :: df)
      | _, _ => None
      end
  end.

(** The cells of the [n]-th column. *)
Definition column (n : nat) (f : file) : list string :=
  map (fun l => nth n l EmptyString) f.

(** [pd.read_csv(path, parse_dates=['arrival_date', 'delivery_date'])].
    [None]: the table that pandas returns is not one of records, or is
    outside the model.  A text column may come back as numbers or truth
    values; a date column is read when every cell is a missing value or a
    [YYYY-MM-DD]; one that mixes the [YYYY-MM-DD 00:00:00] of
    [timestamp_cell] with [YYYY-MM-DD] comes back from pandas as a column
    of text. *)
Definition read_csv (f : file) : option DataFrame :=
  if keeps_text (column 0 f) && keeps_text (column 1 f)
  then read_lines f
  else None.

End Csv.

(** ** Sorting

    [sort_values] and the key order of [groupby] are modelled by one
    insertion sort.  pandas' default sort is not stable; the order of rows
    with equal keys, which this sort fixes, is relied on nowhere. *)

Section Sort.

Context {A : Type} (le : A -> A -> bool).

Fixpoint insert (x : A) (l : list A) : list A :=
  match l with
  | [] => [x]
  | y :: l' => if le x y then x :: l else y :: insert x l'
  end.

Definition sort (l : list A) : list A := fold_right insert [] l.

End Sort.

(** ** Statistics Engine *)

Module Stats.

Definition name_is (k : string) (r : ContainerRecord) : bool :=
  match customer_name r with
  | Some n => String.eqb n k
  | None => false
  end.

Definition customer_names (df : DataFrame) : list string :=
  flat_map (fun r => match customer_name r with
                     | Some n => [n]
                     | None => []
                     end) df.

(** The group keys of [groupby('customer_name')]: the distinct names in
    ascending order; rows whose key is missing belong to no group
    ([dropna=True]). *)
Definition group_keys (df : DataFrame) : list string :=
  sort String.leb (nodup string_dec (customer_names df)).

(** [df.groupby('customer_name')['days_to_deliver']]: each key with the
    [days_to_deliver] cells of its rows, in row order. *)
Definition groupby_days (df : DataFrame) : list (string * list (option Z)) :=
  map (fun k => (k, map days_to_deliver (filter (name_is k) df))) (group_keys df).

Definition dropna (cells : list (option Z)) : list Z :=
  flat_map (fun c => match c with Some z => [z] | None => [] end) cells.

Definition sum (xs : list Z) : Z := fold_right Z.add 0 xs.

(** ['mean'] skips missing cells; the mean of no value at all is NaN. *)
Definition mean (cells : list (option Z)) : option Q :=
  match dropna cells with
  | [] => None
  | xs => Some (Qmake (sum xs) (Pos.of_nat (List.length xs)))
  end.

(** ['count'] is the number of cells that are not missing. *)
Definition count (cells : list (option Z)) : Z :=
  Z.of_nat (List.length (dropna cells)).

Record StatsRow := mkStats {
  stats_customer_name : string;
  avg_delivery_days : option Q;
  record_count : Z
}.

(** [.agg(avg_delivery_days='mean', record_count='count').reset_index()] *)
Definition agg (groups : list (string * list (option Z))) : list StatsRow :=
  map (fun g => mkStats (fst g) (mean (snd g)) (count (snd g))) groups.

(** Ascending order of a float column with [na_position='last']. *)
Definition nan_last_leb (a b : option Q) : bool :=
  match a, b with
  | Some x, Some y => Qle_bool x y
  | _, None => true
  | None, Some _ => false
  end.

(** [.sort_values('avg_delivery_days')] *)
Definition sort_values (rows : list StatsRow) : list StatsRow :=
  sort (fun r1 r2 => nan_last_leb (avg_delivery_days r1) (avg_delivery_days r2)) rows.

(** Lines 83-86 of the script. *)
Definition customer_stats (df : DataFrame) : list StatsRow :=
  sort_values (agg (groupby_days df)).

End Stats.

(** ** Placement Classifier *)

Module Placement.

Definition LOWER : string := "Lower Level (Easy Access)".
Definition UPPER : string := "Upper Level (Long-term Storage)".

(** Lines 125-126:
    [data[data['delivery_date'].isna() | (data['delivery_date'] > pd.to_datetime(datetime.today()))]] *)
Definition is_current (now : datetime) (r : ContainerRecord) : bool :=
  match delivery_date r with
  | None => true
  | Some d => timestamp now <? timestamp_of_date d
  end.

Definition current_containers (now : datetime) (df : DataFrame) : DataFrame :=
  filter (is_current now) df.

(** Line 132: [data.groupby('customer_name')['days_to_deliver'].mean().reset_index()] *)
Definition customer_means (df : DataFrame) : list (string * option Q) :=
  map (fun g => (fst g, Stats.mean (snd g))) (Stats.groupby_days df).

Definition key_matches (r : ContainerRecord) (kv : string * option Q) : bool :=
  Stats.name_is (fst kv) r.

(** Line 133: [left.merge(right, on='customer_name', how='left')].  Every left
    row is kept, in order, once per right row with its key, and once with a
    missing value when no right row has its key.  The right column
    [days_to_deliver] comes out as [days_to_deliver_y], which line 134
    renames to [customer_avg_delivery]. *)
Definition merge_left (left : DataFrame) (right : list (string * option Q))
  : list (ContainerRecord * option Q) :=
  flat_map (fun r =>
              match filter (key_matches r) right with
              | [] => [(r, None)]
              | ms => map (fun kv => (r, snd kv)) ms
              end) left.

(** Line 138: [lambda x: "Lower Level (Easy Access)" if x <= 3 else
    "Upper Level (Long-term Storage)"].  A comparison with NaN is false. *)
Definition placement_rule (x : option Q) : string :=
  match x with
  | Some q => if Qle_bool q 3 then LOWER else UPPER
  | None => UPPER
  end.

Record PlacementRow := mkPlacement {
  row : ContainerRecord;
  customer_avg_delivery : option Q;
  placement : string
}.

(** Lines 132-139: the merged table with its [placement] column.  The
    updates in place of lines 134 and 137 act on the frame [merge] returned,
    which is no part of [st.session_state.data]. *)
Definition suggestions (now : datetime) (df : DataFrame) : list PlacementRow :=
  map (fun m => mkPlacement (fst m) (snd m) (placement_rule (snd m)))
      (merge_left (current_containers now df) (customer_means df)).

(** [placement_counts.get(label, 0)] of [value_counts()]. *)
Definition placement_count (label : string) (rows : list PlacementRow) : Z :=
  Z.of_nat (List.length (filter (fun p => String.eqb (placement p) label) rows)).

End Placement.

(** ** The script *)

Module App.

Import Stats Placement.

(** What a run puts on the page.  Titles, headings and the styling of
    tables and charts are left out. *)
Inductive ui :=
  | st_error (msg : string)
  | st_success (msg : string)
  | st_warning (msg : string)
  | st_info (msg : string)
  | st_dataframe (df : DataFrame)
  | st_dataframe_stats (rows : list StatsRow)
  | st_dataframe_placement (rows : list (option string * option string * option Q * string))
  | st_metric (label : string) (value : Z)
  | st_plotly_bar (rows : list StatsRow)
  | st_plotly_line (df : DataFrame)
  | st_plotly_pie (lower upper : Z)
  | st_download_button (label : string) (data : Csv.file) (file_name : string).

(** A [DataFrame] object that a statement can update in place or that the
    session holds on to: a table of records, the table line 69 makes of a
    loaded table and the row of the form, the per-customer means of line
    132, the merged table of line 133 with the label of its sixth column,
    and the merged table with its [placement] column.  Frames that are only
    read (the statistics table, the one-row table of the form) are modelled
    by their value.

    The date columns of [Records] are typed as a whole: Timestamps, as
    [read_csv] returns them, or the [datetime.date] values of the form when
    the table has no other row.  In [Appended] the rows of [old] hold
    Timestamps and those of [new] hold [datetime.date] values. *)
Inductive frame :=
  | Records (rows : DataFrame)
  | Appended (old new : DataFrame)
  | Means (rows : list (string * option Q))
  | Merged (label : string) (rows : list (ContainerRecord * option Q))
  | Placed (rows : list PlacementRow).

(** The address of a frame. *)
Definition loc := nat.

(** The state a run works on: the frames by address, the frame
    [st.session_state.data] refers to ([None] while
    ['data' not in st.session_state]), the file [container_data.csv]
    ([None] while it does not exist) and the page being drawn. *)
Record world := mkWorld {
  objects : list frame;
  session_data : option loc;
  container_data_csv : option Csv.file;
  screen : list ui
}.

(** A statement of the script: it reads and updates the world, or leaves the
    model ([None]: the file holds a cell [read_csv] does not model, or the
    statement raises). *)
Definition App (A : Type) : Type := world -> option (A * world).

Definition ret {A} (a : A) : App A := fun w => Some (a, w).

Definition raise {A} : App A := fun _ => None.

Definition bind {A B} (c : App A) (k : A -> App B) : App B :=
  fun w => match c w with
           | Some (a, w') => k a w'
           | None => None
           end.

Notation "x <- c ;; k" := (bind c (fun x => k))
  (at level 61, c at next level, right associativity).
Notation "c ;; k" := (bind c (fun _ => k))
  (at level 61, right associativity).

(** A pandas operation that returns a new frame. *)
Definition new_frame (f : frame) : App loc :=
  fun w => Some (List.length (objects w),
                 mkWorld (objects w ++ [f])%list (session_data w)
                         (container_data_csv w) (screen w)).

Definition read_frame (l : loc) : App frame :=
  fun w => match nth_error (objects w) l with
           | Some f => Some (f, w)
           | None => None
           end.

Fixpoint replace (l : loc) (f : frame) (fs : list frame) : list frame :=
  match fs, l with
  | [], _ => []
  | _ :: fs', O => f :: fs'
  | g :: fs', S l' => g :: replace l' f fs'
  end.

(** A pandas operation that updates a frame in place. *)
Definition write_frame (l : loc) (f : frame) : App unit :=
  fun w => Some (tt, mkWorld (replace l f (objects w)) (session_data w)
                             (container_data_csv w) (screen w)).

(** The rows of [st.session_state.data], for the statements that work on a
    table whose date columns are typed as a whole. *)
Definition get_data : App DataFrame :=
  fun w => match session_data w with
           | Some l => match nth_error (objects w) l with
                       | Some (Records df) => Some (df, w)
                       | _ => None
                       end
           | None => None
           end.

(** [st.session_state.data = ...] for a frame the statement has made. *)
Definition set_frame (f : frame) : App unit :=
  l <- new_frame f ;;
  fun w => Some (tt, mkWorld (objects w) (Some l) (container_data_csv w) (screen w)).

Definition set_data (df : DataFrame) : App unit := set_frame (Records df).

Definition show (u : ui) : App unit :=
  fun w => Some (tt, mkWorld (objects w) (session_data w) (container_data_csv w)
                             (screen w ++ [u])%list).

(** Lines 8-15: [if 'data' not in st.session_state: ... = pd.DataFrame(columns=[...])] *)
Definition init_session : App unit :=
  fun w => match session_data w with
           | Some _ => Some (tt, w)
           | None => set_data empty_frame w
           end.

(** The frame [st.session_state.data] refers to. *)
Definition session_frame : App frame :=
  fun w => match session_data w with
           | Some l => read_frame l w
           | None => None
           end.

(** [frame.to_csv(index=False)] *)
Definition to_csv (f : frame) : App Csv.file :=
  match f with
  | Records df => ret (Csv.to_csv df)
  | Appended old new => ret (Csv.to_csv_appended old new)
  | _ => raise
  end.

(** Lines 24-25: [st.session_state.data.to_csv('container_data.csv', index=False)] *)
Definition save_data : App unit :=
  data <- session_frame ;;
  text <- to_csv data ;;
  fun w => Some (tt, mkWorld (objects w) (session_data w) (Some text) (screen w)).

(** Lines 28-30: [if os.path.exists(...): st.session_state.data = pd.read_csv(...)] *)
Definition load_data : App unit :=
  fun w => match container_data_csv w with
           | Some f => match Csv.read_csv f with
                       | Some df => set_data df w
                       | None => None
                       end
           | None => Some (tt, w)
           end.

Inductive Menu :=
  | AddNewRecord
  | ViewCustomerStats
  | ContainerPlacementSuggestions
  | DataManagement.

(** The values the widgets return in one run, and the clock. *)
Record widgets := mkWidgets {
  menu : Menu;
  customer_name_input : string;        (* st.text_input("Customer Name") *)
  container_id_input : string;         (* st.text_input("Container ID") *)
  arrival_date_input : date;           (* st.date_input("Arrival Date", ...) *)
  delivery_date_input : date;          (* st.date_input("Delivery Date", ...) *)
  add_record_button : bool;            (* st.button("Add Record") *)
  selected_customer_index : nat;       (* st.selectbox(...) *)
  clear_all_data_button : bool;        (* st.button("Clear All Data") *)
  confirm_delete_button : bool;        (* st.button("Confirm Delete") *)
  today : datetime                     (* datetime.today() *)
}.

(** Python's [not s] for a text. *)
Definition not_str (s : string) : bool :=
  match s with EmptyString => true | _ => false end.

(** [pd.concat([data, new_record], ignore_index=True)] for a table [data]
    with date columns typed as a whole and the one-row table of the form: a
    new frame with the rows of both.  With no row in [data] the date columns
    of the result hold the [datetime.date] values of the form alone;
    otherwise they hold the Timestamps of [data] followed by those values. *)
Definition concat (data new_record : DataFrame) : frame :=
  match data with
  | [] => Records new_record
  | _ :: _ => Appended data new_record
  end.

(** [df.tail()]: the last five rows. *)
Definition tail (df : DataFrame) : DataFrame :=
  skipn (List.length df - 5) df.

(** [df.empty] *)
Definition empty (df : DataFrame) : bool :=
  match df with [] => true | _ => false end.

(** Lines 60-67: the one-row table built from the form. *)
Definition new_record (i : widgets) : DataFrame :=
  let days_to_deliver := sub_days (delivery_date_input i) (arrival_date_input i) in
  [ mkRecord (Some (customer_name_input i)) (Some (container_id_input i))
             (Some (arrival_date_input i)) (Some (delivery_date_input i))
             (Some days_to_deliver) ].

(** Lines 60-70: the record is built, appended and saved. *)
Definition add_record_store (i : widgets) : App unit :=
  data <- get_data ;;
  set_frame (concat data (new_record i)) ;;
  save_data.

(** Line 74: [st.dataframe(st.session_state.data.tail())].  Streamlit turns
    the table into an Arrow table, which raises on a column that holds both
    Timestamps and [datetime.date] values; the new row is among the last
    five, and the model does not follow the statement on an [Appended]
    frame. *)
Definition show_tail : App unit :=
  data <- session_frame ;;
  match data with
  | Records df => show (st_dataframe (tail df))
  | _ => raise
  end.

(** Lines 56-74: the body of [if st.button("Add Record"):]. *)
Definition add_record_handler (i : widgets) : App unit :=
  if not_str (customer_name_input i) || not_str (container_id_input i) then
    show (st_error "Please fill in all fields")
  else
    add_record_store i ;;
    show (st_success "Record added successfully!") ;;
    show_tail.

(** Lines 45-74 *)
Definition add_new_record (i : widgets) : App unit :=
  if add_record_button i then add_record_handler i else ret tt.

(** Lines 76-116.  Every frame of this page is built by an operation that
    returns a new frame, and none is updated afterwards. *)
Definition view_customer_stats (i : widgets) : App unit :=
  data <- get_data ;;
  if empty data then
    show (st_warning "No data available. Please add records first.")
  else
    let customer_stats := Stats.customer_stats data in
    show (st_dataframe_stats customer_stats) ;;
    show (st_plotly_bar customer_stats) ;;
    let selected_customer :=
      nth_error (map stats_customer_name customer_stats) (selected_customer_index i) in
    let customer_data :=
      match selected_customer with
      | Some k => filter (name_is k) data
      | None => []
      end in
    show (st_dataframe customer_data) ;;
    if (1 <? Z.of_nat (List.length customer_data)) then
      show (st_plotly_line customer_data)
    else ret tt.

(** Line 133: [left.merge(right, on='customer_name', how='left')] returns a
    new frame; the column [days_to_deliver] of the right table comes out
    under the label [days_to_deliver_y]. *)
Definition merge (left right : loc) : App loc :=
  l <- read_frame left ;;
  r <- read_frame right ;;
  match l, r with
  | Records rows, Means means =>
      new_frame (Merged "days_to_deliver_y" (merge_left rows means))
  | _, _ => raise
  end.

(** Line 134: [frame.rename(columns={old: new}, inplace=True)] *)
Definition rename_inplace (l : loc) (old new : string) : App unit :=
  f <- read_frame l ;;
  match f with
  | Merged label rows =>
      write_frame l (Merged (if String.eqb label old then new else label) rows)
  | _ => ret tt
  end.

(** Lines 137-139: [frame['placement'] = frame[column].apply(lambda ...)];
    a frame without that column raises. *)
Definition assign_placement (l : loc) (column : string) : App unit :=
  f <- read_frame l ;;
  match f with
  | Merged label rows =>
      if String.eqb label column then
        write_frame l (Placed (map (fun m => mkPlacement (fst m) (snd m)
                                                         (placement_rule (snd m)))
                                   rows))
      else raise
  | _ => raise
  end.

Definition read_placed (l : loc) : App (list PlacementRow) :=
  f <- read_frame l ;;
  match f with
  | Placed rows => ret rows
  | _ => raise
  end.

(** Line 142: the four columns put on the page. *)
Definition placement_view (p : PlacementRow)
  : option string * option string * option Q * string :=
  (container_id (row p), customer_name (row p), customer_avg_delivery p, placement p).

(** Lines 118-156.  The variable [current_containers] first names the frame
    the mask selects, then the frame the merge returns; lines 134 and 137
    update that second frame in place. *)
Definition container_placement_suggestions (i : widgets) : App unit :=
  data <- get_data ;;
  if empty data then
    show (st_warning "No data available. Please add records first.")
  else
    current_containers <-
      new_frame (Records (Placement.current_containers (today i) data)) ;;
    if empty (Placement.current_containers (today i) data) then
      show (st_info "No active containers in the yard currently.")
    else
      customer_stats <- new_frame (Means (customer_means data)) ;;
      current_containers <- merge current_containers customer_stats ;;
      rename_inplace current_containers "days_to_deliver_y" "customer_avg_delivery" ;;
      assign_placement current_containers "customer_avg_delivery" ;;
      current <- read_placed current_containers ;;
      show (st_dataframe_placement (map placement_view current)) ;;
      let lower := placement_count LOWER current in
      let upper := placement_count UPPER current in
      show (st_metric "Containers for Lower Level" lower) ;;
      show (st_metric "Containers for Upper Level" upper) ;;
      show (st_plotly_pie lower upper).

(** Lines 173-179: the nested buttons of the clear action. *)
Definition clear_handler (i : widgets) : App unit :=
  if clear_all_data_button i then
    show (st_warning "This will permanently delete all data. Are you sure?") ;;
    if confirm_delete_button i then
      set_data empty_frame ;;
      save_data ;;
      show (st_success "All data has been cleared.")
    else ret tt
  else ret tt.

(** Lines 161-171: the table and its download button.  [to_csv(index=False)]
    with no path returns the text and writes no file. *)
Definition export_handler : App unit :=
  data <- get_data ;;
  show (st_dataframe data) ;;
  show (st_download_button "Download Data as CSV" (Csv.to_csv data)
                           "container_yard_data.csv").

(** Lines 158-181 *)
Definition data_management (i : widgets) : App unit :=
  data <- get_data ;;
  if negb (empty data) then
    export_handler ;;
    clear_handler i
  else
    show (st_info "No data available to manage.").

Definition clear_screen : App unit :=
  fun w => Some (tt, mkWorld (objects w) (session_data w) (container_data_csv w) []).

(** One run of the script, top to bottom. *)
Definition run_script (i : widgets) : App unit :=
  clear_screen ;;
  init_session ;;
  load_data ;;
  match menu i with
  | AddNewRecord => add_new_record i
  | ViewCustomerStats => view_customer_stats i
  | ContainerPlacementSuggestions => container_placement_suggestions i
  | DataManagement => data_management i
  end.

(** A process started with no file, before its first session. *)
Definition fresh : world := mkWorld [] None None [].

(** What the date pickers can return. *)
Definition valid_widgets (i : widgets) : bool :=
  valid (arrival_date_input i) && valid (delivery_date_input i).

End App.

Import Stats Placement App.

(** ** The specification's notions

    These definitions follow the words of the specification, not the code;
    the theorems below compare the two. *)

Module Spec.

(** Calendar order of two dates: year first, then month, then day. *)
Definition date_ltb (a b : date) : bool :=
  (year a <? year b) ||
  ((year a =? year b) &&
   ((month a <? month b) || ((month a =? month b) && (day a <? day b)))).

(** The calendar day after a date. *)
Definition next_day (d : date) : date :=
  if day d <? days_in_month (year d) (month d)
  then mkDate (year d) (month d) (day d + 1)
  else if month d <? 12 then mkDate (year d) (month d + 1) 1
       else mkDate (year d + 1) 1 1.

(** "delivery_date is absent or strictly in the future relative to the
    current date". *)
Definition absent_or_future (current : date) (r : ContainerRecord) : bool :=
  match delivery_date r with
  | None => true
  | Some d => date_ltb current d
  end.

(** "delivery_date is in the past". *)
Definition in_the_past (current : date) (r : ContainerRecord) : Prop :=
  exists d, delivery_date r = Some d /\ date_ltb d current = true.

(** The records of one customer. *)
Definition records_of (df : DataFrame) (name : string) : DataFrame :=
  filter (fun r => match customer_name r with
                   | Some n => if string_dec n name then true else false
                   | None => false
                   end) df.

(** The days_to_deliver values of a customer that are not absent. *)
Fixpoint present_days (rs : DataFrame) : list Z :=
  match rs with
  | [] => []
  | r :: rs' => match days_to_deliver r with
                | Some z => z :: present_days rs'
                | None => present_days rs'
                end
  end.

(** "arithmetic mean of days_to_deliver (ignoring absent values)", over all
    records of the customer; undefined when there is no value. *)
Definition historical_mean (df : DataFrame) (name : string) : option Q :=
  let xs := present_days (records_of df name) in
  match xs with
  | [] => None
  | _ => Some (Qdiv (inject_Z (fold_right Z.add 0 xs))
                    (inject_Z (Z.of_nat (List.length xs))))
  end.

(** The mean a record is enriched with; a record with no customer name has
    none. *)
Definition mean_of_record (df : DataFrame) (r : ContainerRecord) : option Q :=
  match customer_name r with
  | Some n => historical_mean df n
  | None => None
  end.

(** "the count of that customer's records". *)
Definition number_of_records (df : DataFrame) (name : string) : Z :=
  Z.of_nat (List.length (records_of df name)).

(** The date [n] days after a date. *)
Definition add_days (n : nat) (d : date) : date := Nat.iter n next_day d.

(** "delivery_date - arrival_date in whole days", counted on the calendar:
    [k] days lead from the arrival to the delivery or, for a delivery before
    the arrival, [-k] days lead from the delivery to the arrival. *)
Definition days_between (arrival delivery : date) (k : Z) : Prop :=
  (0 <= k /\ delivery = add_days (Z.to_nat k) arrival) \/
  (k < 0 /\ arrival = add_days (Z.to_nat (- k)) delivery).

(** "days_to_deliver = delivery_date - arrival_date in days, or absent if
    delivery_date is absent". *)
Definition days_to_deliver_ok (r : ContainerRecord) : Prop :=
  match delivery_date r with
  | None => days_to_deliver r = None
  | Some d => exists a k, arrival_date r = Some a /\
                          days_to_deliver r = Some k /\ days_between a d k
  end.

(** A customer none of whose records has a delivery date. *)
Definition never_delivered (df : DataFrame) (name : option string) : Prop :=
  forall r, In r df -> customer_name r = name -> delivery_date r = None.

(** A customer none of whose records has a days_to_deliver value. *)
Definition no_history (df : DataFrame) (name : option string) : Prop :=
  forall r, In r df -> customer_name r = name -> days_to_deliver r = None.


(** A text without its first [n] characters. *)
Fixpoint skip (n : nat) (s : string) : string :=
  match n, s with
  | S n', String _ s' => skip n' s'
  | _, _ => s
  end.

(** "dates in a parseable calendar format": the date a cell of the file
    holds.  The cell reads [YYYY-MM-DD], alone or followed by the time of
    day [00:00:00]; the empty cell holds no date. *)
Definition date_in_cell (s : string) : option (option date) :=
  if String.eqb s EmptyString then Some None
  else if existsb (String.eqb (skip 10 s)) [EmptyString; " 00:00:00"]
       then option_map Some (fromisoformat (substring 0 10 s))
       else None.

(** The text a cell of the file holds; the empty cell holds none. *)
Definition text_in_cell (s : string) (v : option string) : Prop :=
  match v with
  | Some t => s = t
  | None => s = EmptyString
  end.

(** A line of the file holds a record: its five cells are the customer
    name, the container id, the arrival date, the delivery date and the
    days_to_deliver of the record. *)
Definition line_holds (l : Csv.line) (r : ContainerRecord) : Prop :=
  match l with
  | [n; i; a; d; k] =>
      text_in_cell n (customer_name r) /\
      text_in_cell i (container_id r) /\
      date_in_cell a = Some (arrival_date r) /\
      date_in_cell d = Some (delivery_date r) /\
      Csv.read_number k = Some (days_to_deliver r)
  | _ => False
  end.

(** Ascending order of means, undefined means after the defined ones. *)
Definition mean_le (a b : option Q) : Prop :=
  match a, b with
  | Some x, Some y => (x <= y)%Q
  | _, None => True
  | None, Some _ => False
  end.

(** Two means are the same number, or both undefined. *)
Definition same_mean (a b : option Q) : Prop :=
  match a, b with
  | Some x, Some y => (x == y)%Q
  | None, None => True
  | _, _ => False
  end.

End Spec.

(** ** Auxiliary notions of the proofs *)

Module Aux.

(** The characters of a written integer or date: digits and the dash. *)
Definition int_char (c : ascii) : bool :=
  let n := nat_of_ascii c in
  ((48 <=? n)%nat && (n <=? 57)%nat) || Ascii.eqb c "-".

Fixpoint int_chars (s : string) : bool :=
  match s with
  | EmptyString => true
  | String c s' => int_char c && int_chars s'
  end.

(** The characters of a written number, float or not. *)
Definition num_char (c : ascii) : bool := int_char c || Ascii.eqb c ".".

Fixpoint num_chars (s : string) : bool :=
  match s with
  | EmptyString => true
  | String c s' => num_char c && num_chars s'
  end.

Definition opt_valid (d : option date) : bool :=
  match d with Some x => valid x | None => true end.

(** Both dates of a row are dates a [datetime.date] can hold. *)
Definition valid_dates (r : ContainerRecord) : bool :=
  opt_valid (arrival_date r) && opt_valid (delivery_date r).

(** A row as it comes back from the file: a text cell that is one of the
    missing-value tokens comes back missing; the other cells come back as
    they were. *)
Definition reload_record (r : ContainerRecord) : ContainerRecord :=
  mkRecord (Csv.read_text (Csv.text_cell (customer_name r)))
           (Csv.read_text (Csv.text_cell (container_id r)))
           (arrival_date r) (delivery_date r) (days_to_deliver r).

Definition text_survives (v : option string) : bool :=
  match v with
  | Some s => negb (Csv.is_na_value s)
  | None => true
  end.

(** The mean that lines 132-134 attach to a row: that of the group of its
    customer, missing when the row has no customer name. *)
Definition merged_mean (df : DataFrame) (r : ContainerRecord) : option Q :=
  match customer_name r with
  | Some n => mean (map days_to_deliver (filter (name_is n) df))
  | None => None
  end.

(** The rows of the session's table, when the session has one whose date
    columns are typed as a whole. *)
Definition store (w : world) : option DataFrame :=
  match get_data w with
  | Some (df, _) => Some df
  | None => None
  end.

(** The rows of the session's table, whatever its date columns hold. *)
Definition session_rows (w : world) : option DataFrame :=
  match session_frame w with
  | Some (Records df, _) => Some df
  | Some (Appended old new, _) => Some (old ++ new)%list
  | _ => None
  end.

(** The file line 70 writes once line 69 has put the rows of the form
    behind those of a table. *)
Definition saved (data new : DataFrame) : Csv.file :=
  match data with
  | [] => Csv.to_csv new
  | _ :: _ => Csv.to_csv_appended data new
  end.

(** Both text columns of a table come back from the file as text. *)
Definition text_columns_kept (df : DataFrame) : bool :=
  Csv.keeps_text (map (fun r => Csv.text_cell (customer_name r)) df) &&
  Csv.keeps_text (map (fun r => Csv.text_cell (container_id r)) df).

(** The table the prologue of a run leaves in the session: the one read
    from the file when the file exists, and otherwise the session's own
    (the empty one in a session that has none yet). *)
Definition loaded_data (w : world) : option DataFrame :=
  match container_data_csv w with
  | Some f => Csv.read_csv f
  | None => match session_data w with
            | Some _ => store w
            | None => Some empty_frame
            end
  end.

(** The second world has the frames of the first, untouched, and possibly
    new ones behind them. *)
Definition extends (w w' : world) : Prop :=
  exists fs, objects w' = (objects w ++ fs)%list.

(** The second world has the session's reference, the file and every frame
    of the first: nothing was rebound, written or updated in place. *)
Definition untouched (w w' : world) : Prop :=
  session_data w' = session_data w /\
  container_data_csv w' = container_data_csv w /\
  extends w w'.

(** The menu branch of a run. *)
Definition branch (i : widgets) : App unit :=
  match menu i with
  | AddNewRecord => add_new_record i
  | ViewCustomerStats => view_customer_stats i
  | ContainerPlacementSuggestions => container_placement_suggestions i
  | DataManagement => data_management i
  end.

(** The cells of a row that are no text. *)
Definition dates_and_days (r : ContainerRecord)
  : option date * option date * option Z :=
  (arrival_date r, delivery_date r, days_to_deliver r).

(** The widget values of a submission the add handler accepts. *)
Definition accepted (i : widgets) : Prop :=
  menu i = AddNewRecord /\ add_record_button i = true /\
  customer_name_input i <> EmptyString /\
  container_id_input i <> EmptyString.

(** The statements of the script before its menu. *)
Definition prologue : App unit :=
  clear_screen ;; init_session ;; load_data.

End Aux.

(** ** Sample data *)

Module Sample.

Definition noon (d : date) : datetime := mkDatetime d 43200000000.

(** The current instant of the samples: 2024-06-01, 12:00. *)
Definition now : datetime := noon (mkDate 2024 6 1).

Definition delivered (name id : string) (a d : date) : ContainerRecord :=
  mkRecord (Some name) (Some id) (Some a) (Some d) (Some (sub_days d a)).

Definition in_yard (name id : string) (a : date) : ContainerRecord :=
  mkRecord (Some name) (Some id) (Some a) None None.

(** Acme, C1, 2024-01-01 to 2024-01-03. *)
Definition acme_c1 : ContainerRecord :=
  delivered "Acme" "C1" (mkDate 2024 1 1) (mkDate 2024 1 3).

(** Acme again, due after the current instant, two days after arrival. *)
Definition acme_c2 : ContainerRecord :=
  delivered "Acme" "C2" (mkDate 2024 6 10) (mkDate 2024 6 12).

(** Bolt: one delivery of 4 days in the past, one of 6 days still to come;
    the mean is 5. *)
Definition bolt_b1 : ContainerRecord :=
  delivered "Bolt" "B1" (mkDate 2024 2 1) (mkDate 2024 2 5).
Definition bolt_b2 : ContainerRecord :=
  delivered "Bolt" "B2" (mkDate 2024 6 20) (mkDate 2024 6 26).

(** Nova has one container in the yard and no delivery yet. *)
Definition nova_n1 : ContainerRecord :=
  in_yard "Nova" "N1" (mkDate 2024 5 20).

Definition yard : DataFrame := [acme_c1; acme_c2; bolt_b1; bolt_b2; nova_n1].

(** A customer whose name is one of [read_csv]'s missing-value tokens. *)
Definition na_c7 : ContainerRecord :=
  delivered "NA" "C7" (mkDate 2024 1 1) (mkDate 2024 1 4).

(** The form filled in for Acme, C1, with the "Add Record" button pressed. *)
Definition acme_form : widgets :=
  mkWidgets AddNewRecord "Acme" "C1" (mkDate 2024 1 1) (mkDate 2024 1 3)
            true 0 false false now.

(** The same form with the customer name left empty. *)
Definition nameless_form : widgets :=
  mkWidgets AddNewRecord EmptyString "C1" (mkDate 2024 1 1) (mkDate 2024 1 3)
            true 0 false false now.

(** The form filled in for a customer named NA. *)
Definition na_form : widgets :=
  mkWidgets AddNewRecord "NA" "C7" (mkDate 2024 1 1) (mkDate 2024 1 4)
            true 0 false false now.

(** A visit of the statistics page. *)
Definition stats_visit : widgets :=
  mkWidgets ViewCustomerStats EmptyString EmptyString
            (mkDate 2024 6 1) (mkDate 2024 6 4) false 0 false false now.

(** A file with one line: a container of Nova still in the yard. *)
Definition nova_file : Csv.file :=
  [["Nova"; "N1"; "2024-05-20"; EmptyString; EmptyString]].



(** A world holding [yard] in the session and in the file. *)
Definition yard_world : world :=
  mkWorld [Records yard] (Some 0%nat) (Some (Csv.to_csv yard)) [].

End Sample.

(** * Properties *)

Import Aux.

(** ** Dates *)

Section DateFacts.

Lemma digit_val_digit (n : Z) : digit_val (digit n) = Some (n mod 10).
Proof.
  unfold digit.
  assert (H : 0 <= n mod 10 < 10) by (apply Z.mod_pos_bound; lia).
  remember (n mod 10) as k eqn:E; clear E.
  assert (C : k = 0 \/ k = 1 \/ k = 2 \/ k = 3 \/ k = 4 \/
              k = 5 \/ k = 6 \/ k = 7 \/ k = 8 \/ k = 9) by lia.
  repeat (destruct C as [-> | C]; [reflexivity |]).
  subst k; reflexivity.
Qed.

Lemma num2_digits (n : Z) :
  0 <= n < 100 -> num2 (digit (n / 10)) (digit n) = Some n.
Proof.
  intros H. unfold num2. rewrite !digit_val_digit. f_equal.
  Z.div_mod_to_equations. lia.
Qed.

Lemma num4_digits (n : Z) :
  0 <= n < 10000 ->
  num4 (digit (n / 1000)) (digit (n / 100)) (digit (n / 10)) (digit n) = Some n.
Proof.
  intros H. unfold num4, num2. rewrite !digit_val_digit. f_equal.
  Z.div_mod_to_equations. lia.
Qed.

Lemma days_in_month_le_31 (y m : Z) : days_in_month y m <= 31.
Proof.
  unfold days_in_month.
  destruct ((m =? 2) && is_leap y); [lia |].
  destruct (Z.to_nat m) as [|[|[|[|[|[|[|[|[|[|[|[|[|k]]]]]]]]]]]]];
    simpl; try lia.
  destruct k; simpl; lia.
Qed.

(** A date that [datetime.date] can hold is read back from its ISO text. *)
Lemma fromisoformat_isoformat (d : date) :
  valid d = true -> fromisoformat (isoformat d) = Some d.
Proof.
  destruct d as [y m dd]. intros V.
  pose proof V as V'. unfold valid in V'. simpl in V'.
  repeat rewrite andb_true_iff in V'.
  destruct V' as [[[[[Hy1 Hy2] Hm1] Hm2] Hd1] Hd2].
  apply Z.leb_le in Hy1, Hy2, Hm1, Hm2, Hd1, Hd2.
  pose proof (days_in_month_le_31 y m) as Hdim.
  unfold isoformat, fromisoformat. cbn [year month day].
  rewrite (num4_digits y) by lia.
  rewrite (num2_digits m) by lia.
  rewrite (num2_digits dd) by lia.
  rewrite V. reflexivity.
Qed.

Example toordinal_2024_01_01 : toordinal (mkDate 2024 1 1) = 738886.
Proof. reflexivity. Qed.

Example isoformat_2024_01_03 : isoformat (mkDate 2024 1 3) = "2024-01-03".
Proof. reflexivity. Qed.

Example fromisoformat_leap_day :
  fromisoformat "2024-02-29" = Some (mkDate 2024 2 29) /\
  fromisoformat "2023-02-29" = None.
Proof. split; reflexivity. Qed.

End DateFacts.

(** ** Ordinals and the calendar order *)

Section Ordinals.

Lemma days_before_year_succ (y : Z) :
  days_before_year (y + 1) =
  days_before_year y + 365 + (if is_leap y then 1 else 0).
Proof.
  unfold days_before_year, is_leap. cbv zeta.
  replace (y + 1 - 1) with y by lia.
  destruct (y mod 4 =? 0) eqn:E4; destruct (y mod 100 =? 0) eqn:E100;
    destruct (y mod 400 =? 0) eqn:E400; cbn [andb orb negb];
    rewrite ?Z.eqb_eq, ?Z.eqb_neq in *;
    Z.div_mod_to_equations; lia.
Qed.

Lemma days_before_year_mono (y n : Z) :
  0 <= n -> days_before_year y + 365 * n <= days_before_year (y + n).
Proof.
  intros Hn. revert n Hn.
  apply (natlike_ind (fun n => days_before_year y + 365 * n <= days_before_year (y + n))).
  - replace (y + 0) with y by lia. lia.
  - intros n Hn IH.
    replace (y + Z.succ n) with ((y + n) + 1) by lia.
    rewrite days_before_year_succ.
    destruct (is_leap (y + n)); lia.
Qed.

Lemma month_cases (m : Z) :
  1 <= m <= 12 ->
  m = 1 \/ m = 2 \/ m = 3 \/ m = 4 \/ m = 5 \/ m = 6 \/
  m = 7 \/ m = 8 \/ m = 9 \/ m = 10 \/ m = 11 \/ m = 12.
Proof. lia. Qed.

Ltac eval_month_tables :=
  cbv [nth DAYS_IN_MONTH DAYS_BEFORE_MONTH Z.to_nat Pos.to_nat Pos.iter_op
       Nat.add Z.eqb Z.ltb Z.compare Pos.eqb Pos.compare Pos.compare_cont andb] in *.

(** The day of the year of a valid date lies within the year. *)
Lemma day_of_year_bounds (y m d : Z) :
  1 <= m <= 12 -> 1 <= d <= days_in_month y m ->
  1 <= days_before_month y m + d <= 365 + (if is_leap y then 1 else 0).
Proof.
  intros Hm Hd. unfold days_before_month, days_in_month in *.
  destruct (month_cases m Hm) as [H|[H|[H|[H|[H|[H|[H|[H|[H|[H|[H|H]]]]]]]]]]];
    subst m; destruct (is_leap y); eval_month_tables; lia.
Qed.

(** Within a year, a later month starts after every day of an earlier one. *)
Lemma month_order (y m1 d1 m2 : Z) :
  1 <= m1 <= 12 -> 1 <= m2 <= 12 -> d1 <= days_in_month y m1 -> m1 < m2 ->
  days_before_month y m1 + d1 <= days_before_month y m2.
Proof.
  intros H1 H2 Hd Hlt. unfold days_before_month, days_in_month in *.
  destruct (month_cases m1 H1) as [A|[A|[A|[A|[A|[A|[A|[A|[A|[A|[A|A]]]]]]]]]]];
    subst m1;
    destruct (month_cases m2 H2) as [B|[B|[B|[B|[B|[B|[B|[B|[B|[B|[B|B]]]]]]]]]]];
    subst m2; try lia; destruct (is_leap y); eval_month_tables; lia.
Qed.

Lemma valid_bounds (d : date) :
  valid d = true ->
  1 <= year d <= 9999 /\ 1 <= month d <= 12 /\
  1 <= day d <= days_in_month (year d) (month d).
Proof.
  unfold valid. rewrite !andb_true_iff, !Z.leb_le. tauto.
Qed.

Lemma toordinal_lt_of_date_lt (a b : date) :
  valid a = true -> valid b = true ->
  Spec.date_ltb a b = true -> toordinal a < toordinal b.
Proof.
  intros Va Vb. apply valid_bounds in Va, Vb.
  destruct a as [ya ma da], b as [yb mb db]; cbn [year month day] in *.
  unfold Spec.date_ltb, toordinal; cbn [year month day].
  destruct Va as (Hya & Hma & Hda), Vb as (Hyb & Hmb & Hdb).
  pose proof (day_of_year_bounds ya ma da Hma Hda) as Ba.
  pose proof (day_of_year_bounds yb mb db Hmb Hdb) as Bb.
  repeat rewrite ?orb_true_iff, ?andb_true_iff, ?Z.ltb_lt, ?Z.eqb_eq.
  intros [Hy | [-> [Hm | [-> Hd]]]].
  - pose proof (days_before_year_mono (ya + 1) (yb - (ya + 1)) ltac:(lia)) as M.
    replace (ya + 1 + (yb - (ya + 1))) with yb in M by lia.
    rewrite days_before_year_succ in M.
    destruct (is_leap ya); lia.
  - pose proof (month_order yb ma da mb Hma Hmb ltac:(lia) Hm). lia.
  - lia.
Qed.

(** On valid dates the order of ordinals is the calendar order. *)
Lemma toordinal_ltb (a b : date) :
  valid a = true -> valid b = true ->
  (toordinal a <? toordinal b) = Spec.date_ltb a b.
Proof.
  intros Va Vb.
  destruct (Spec.date_ltb a b) eqn:E.
  - apply Z.ltb_lt. now apply toordinal_lt_of_date_lt.
  - apply Z.ltb_ge.
    destruct (Spec.date_ltb b a) eqn:E'.
    + apply toordinal_lt_of_date_lt in E'; auto. lia.
    + assert (a = b) as ->; [| lia].
      destruct a as [ya ma da], b as [yb mb db].
      unfold Spec.date_ltb in E, E'; cbn [year month day] in E, E'.
      repeat rewrite ?orb_false_iff, ?andb_false_iff, ?Z.ltb_ge, ?Z.eqb_neq in E.
      repeat rewrite ?orb_false_iff, ?andb_false_iff, ?Z.ltb_ge, ?Z.eqb_neq in E'.
      assert (ya = yb) by lia. subst.
      assert (ma = mb) by lia. subst.
      assert (da = db) by lia. subst. reflexivity.
Qed.

(** The ordinal counts calendar days: the day after has the next ordinal. *)
Lemma toordinal_next_day (d : date) :
  valid d = true -> toordinal (Spec.next_day d) = toordinal d + 1.
Proof.
  intros V. apply valid_bounds in V. destruct d as [y m dd].
  cbn [year month day] in V. destruct V as (Hy & Hm & Hd).
  unfold Spec.next_day, toordinal; cbn [year month day].
  destruct (dd <? days_in_month y m) eqn:E; cbn [year month day]; [lia |].
  apply Z.ltb_ge in E. assert (dd = days_in_month y m) as -> by lia. clear E Hd.
  destruct (m <? 12) eqn:E12; cbn [year month day].
  - apply Z.ltb_lt in E12.
    unfold days_before_month, days_in_month.
    destruct (month_cases m Hm) as [H|[H|[H|[H|[H|[H|[H|[H|[H|[H|[H|H]]]]]]]]]]];
      subst m; try lia;
      match goal with
      | |- context [Z.pos ?p + 1] =>
          let v := eval compute in (Z.pos p + 1) in change (Z.pos p + 1) with v
      end;
      destruct (is_leap y); eval_month_tables; lia.
  - apply Z.ltb_ge in E12. assert (m = 12) as -> by lia.
    rewrite days_before_year_succ.
    unfold days_before_month, days_in_month.
    destruct (is_leap y), (is_leap (y + 1)); eval_month_tables; lia.
Qed.

Lemma date_ltb_trichotomy (a b : date) :
  Spec.date_ltb a b = false -> Spec.date_ltb b a = false -> a = b.
Proof.
  destruct a as [ya ma da], b as [yb mb db].
  unfold Spec.date_ltb; cbn [year month day]. intros E E'.
  repeat rewrite ?orb_false_iff, ?andb_false_iff, ?Z.ltb_ge, ?Z.eqb_neq in E.
  repeat rewrite ?orb_false_iff, ?andb_false_iff, ?Z.ltb_ge, ?Z.eqb_neq in E'.
  assert (ya = yb) by lia. subst.
  assert (ma = mb) by lia. subst.
  assert (da = db) by lia. subst. reflexivity.
Qed.









(** A midnight timestamp lies after the current instant exactly when its
    date lies after the current date. *)
Lemma timestamp_ltb (now : datetime) (d : date) :
  valid_datetime now = true ->
  (timestamp now <? timestamp_of_date d) = (toordinal (dt_date now) <? toordinal d).
Proof.
  unfold valid_datetime, timestamp, timestamp_of_date, US_PER_DAY.
  rewrite !andb_true_iff, Z.leb_le, Z.ltb_lt. intros [[_ H0] H1].
  destruct (toordinal (dt_date now) <? toordinal d) eqn:E.
  - apply Z.ltb_lt in E. apply Z.ltb_lt. nia.
  - apply Z.ltb_ge in E. apply Z.ltb_ge. nia.
Qed.

End Ordinals.

(** ** Cells of the file *)

Section CellFacts.

#[local] Arguments Csv.is_na_value : simpl never.

Lemma int_char_digit (n : Z) : int_char (digit n) = true.
Proof.
  unfold digit.
  assert (H : 0 <= n mod 10 < 10) by (apply Z.mod_pos_bound; lia).
  remember (n mod 10) as k eqn:E; clear E.
  assert (C : k = 0 \/ k = 1 \/ k = 2 \/ k = 3 \/ k = 4 \/
              k = 5 \/ k = 6 \/ k = 7 \/ k = 8 \/ k = 9) by lia.
  repeat (destruct C as [-> | C]; [reflexivity |]).
  subst k; reflexivity.
Qed.

Lemma int_chars_isoformat (d : date) : int_chars (isoformat d) = true.
Proof.
  unfold isoformat. cbn [int_chars].
  rewrite !int_char_digit. reflexivity.
Qed.

Lemma int_chars_uint (d : Decimal.uint) :
  int_chars (NilEmpty.string_of_uint d) = true.
Proof. induction d; cbn [NilEmpty.string_of_uint int_chars]; auto. Qed.

Lemma int_chars_str_int (z : Z) : int_chars (Csv.str_int z) = true.
Proof.
  unfold Csv.str_int, NilZero.string_of_int, NilZero.string_of_uint.
  destruct (Z.to_int z) as [u | u]; destruct u;
    cbn [int_chars]; try reflexivity;
    try (change (int_char "-") with true; cbn [andb]);
    apply (int_chars_uint (_ u)) || apply int_chars_uint.
Qed.

Lemma int_chars_num_chars (s : string) :
  int_chars s = true -> num_chars s = true.
Proof.
  induction s as [| c s IH]; cbn; [reflexivity |].
  rewrite !andb_true_iff. intros [Hc Hs]. unfold num_char. rewrite Hc. auto.
Qed.

Lemma num_chars_app (s t : string) :
  num_chars (s ++ t) = num_chars s && num_chars t.
Proof.
  induction s as [| c s IH]; cbn; [reflexivity |].
  rewrite IH. now rewrite andb_assoc.
Qed.

(** No missing-value token is made of the characters of a number alone,
    the empty text apart. *)
Lemma num_chars_not_na (s : string) :
  num_chars s = true -> s <> EmptyString -> Csv.is_na_value s = false.
Proof.
  intros Hn Hne. unfold Csv.is_na_value, Csv.NA_VALUES.
  cbn [existsb].
  repeat match goal with
         | |- context [String.eqb s ?t] =>
             destruct (String.eqb_spec s t) as [-> | _];
             [ first [ now elim Hne | discriminate Hn ] | ]
         end.
  reflexivity.
Qed.

Lemma str_int_nonempty (z : Z) : Csv.str_int z <> EmptyString.
Proof.
  unfold Csv.str_int, NilZero.string_of_int, NilZero.string_of_uint.
  destruct (Z.to_int z) as [u | u]; destruct u; discriminate.
Qed.

Lemma read_int_str_int (z : Z) : Csv.read_int (Csv.str_int z) = Some z.
Proof.
  unfold Csv.read_int, Csv.str_int.
  rewrite NilZero.isi.
  - cbn. now rewrite DecimalZ.of_to.
  - destruct z; cbn; try discriminate.
    intros [= E]. now apply Unsigned.to_uint_nonnil in E.
  - destruct z; cbn; try discriminate.
    intros [= E]. now apply Unsigned.to_uint_nonnil in E.
Qed.

Lemma strip_dot_zero_int (s : string) :
  int_chars s = true ->
  Csv.strip_dot_zero s = s /\ Csv.strip_dot_zero (s ++ ".0") = s.
Proof.
  induction s as [| c s IH]; [split; reflexivity |].
  cbn [int_chars]. rewrite andb_true_iff. intros [Hc Hs].
  destruct (IH Hs) as [IH1 IH2].
  assert (Hdot : Ascii.eqb c "." = false).
  { destruct (Ascii.eqb_spec c "."); [subst c; discriminate Hc | reflexivity]. }
  split.
  - cbn [Csv.strip_dot_zero String.eqb]. rewrite Hdot. now rewrite IH1.
  - cbn [append Csv.strip_dot_zero String.eqb]. rewrite Hdot. now rewrite IH2.
Qed.

Lemma read_date_date_cell (v : option date) :
  opt_valid v = true -> Csv.read_date (Csv.date_cell v) = Some v.
Proof.
  destruct v as [d |]; cbn [opt_valid Csv.date_cell]; [| reflexivity].
  intros V. unfold Csv.read_date.
  rewrite num_chars_not_na.
  - now rewrite fromisoformat_isoformat.
  - apply int_chars_num_chars, int_chars_isoformat.
  - discriminate.
Qed.

Lemma read_number_number_cell (fc : bool) (v : option Z) :
  Csv.read_number (Csv.number_cell fc v) = Some v.
Proof.
  destruct v as [z |]; [| reflexivity].
  unfold Csv.read_number, Csv.number_cell.
  destruct (strip_dot_zero_int _ (int_chars_str_int z)) as [S1 S2].
  destruct fc.
  - rewrite num_chars_not_na.
    + now rewrite S2, read_int_str_int.
    + rewrite num_chars_app, (int_chars_num_chars _ (int_chars_str_int z)).
      reflexivity.
    + pose proof (str_int_nonempty z). destruct (Csv.str_int z); [easy | discriminate].
  - rewrite num_chars_not_na.
    + now rewrite S1, read_int_str_int.
    + apply int_chars_num_chars, int_chars_str_int.
    + apply str_int_nonempty.
Qed.

(** A written date is the date its cell holds, with or without the time of
    day. *)
Lemma date_in_cell_written (d : date) (rest : string) :
  valid d = true -> In rest [EmptyString; " 00:00:00"] ->
  Spec.date_in_cell (isoformat d ++ rest) = Some (Some d).
Proof.
  intros V Hr. unfold Spec.date_in_cell.
  destruct Hr as [<- | [<- | []]];
    match goal with
    | |- context [isoformat d ++ ?t] =>
        change (String.eqb (isoformat d ++ t) EmptyString) with false;
        change (Spec.skip 10 (isoformat d ++ t)) with t;
        change (substring 0 10 (isoformat d ++ t)) with (isoformat d)
    end;
    rewrite fromisoformat_isoformat by exact V; reflexivity.
Qed.

Lemma date_in_cell_date_cell (v : option date) :
  opt_valid v = true -> Spec.date_in_cell (Csv.date_cell v) = Some v.
Proof.
  destruct v as [d |]; cbn [opt_valid Csv.date_cell]; [| reflexivity].
  intros V. apply (date_in_cell_written d EmptyString V). now left.
Qed.

Lemma date_in_cell_timestamp_cell (v : option date) :
  opt_valid v = true -> Spec.date_in_cell (Csv.timestamp_cell v) = Some v.
Proof.
  destruct v as [d |]; cbn [opt_valid Csv.timestamp_cell]; [| reflexivity].
  intros V. apply (date_in_cell_written d " 00:00:00" V). right. now left.
Qed.

Lemma text_in_cell_text_cell (v : option string) :
  Spec.text_in_cell (Csv.text_cell v) v.
Proof. now destruct v. Qed.

(** A written line holds its row, whichever way its dates are written. *)
Lemma line_holds_to_line (fc : bool) (r : ContainerRecord) :
  valid_dates r = true -> Spec.line_holds (Csv.to_line fc r) r.
Proof.
  unfold valid_dates. rewrite andb_true_iff. intros [Va Vd].
  unfold Spec.line_holds, Csv.to_line.
  repeat split; auto using text_in_cell_text_cell, date_in_cell_date_cell,
    read_number_number_cell.
Qed.

Lemma line_holds_to_line_object (fc : bool) (r : ContainerRecord) :
  valid_dates r = true -> Spec.line_holds (Csv.to_line_object fc r) r.
Proof.
  unfold valid_dates. rewrite andb_true_iff. intros [Va Vd].
  unfold Spec.line_holds, Csv.to_line_object.
  repeat split; auto using text_in_cell_text_cell, date_in_cell_timestamp_cell,
    read_number_number_cell.
Qed.

Lemma lines_hold_map (to : ContainerRecord -> Csv.line) (df : DataFrame) :
  (forall r, valid_dates r = true -> Spec.line_holds (to r) r) ->
  forallb valid_dates df = true ->
  Forall2 Spec.line_holds (map to df) df.
Proof.
  intros H. induction df as [| r df IH]; [constructor |].
  cbn [forallb map]. rewrite andb_true_iff. intros [Vr V].
  constructor; auto.
Qed.

(** Every line of the file line 70 writes holds its row. *)
Lemma lines_hold_saved (data new : DataFrame) :
  forallb valid_dates data = true -> forallb valid_dates new = true ->
  Forall2 Spec.line_holds (saved data new) (data ++ new).
Proof.
  intros Vd Vn. destruct data as [| r data].
  - apply lines_hold_map; [apply line_holds_to_line | exact Vn].
  - unfold saved, Csv.to_csv_appended. apply Forall2_app.
    + apply lines_hold_map; [apply line_holds_to_line_object | exact Vd].
    + apply lines_hold_map; [apply line_holds_to_line | exact Vn].
Qed.

(** A written line is read back as the reloaded row. *)
Lemma read_line_to_line (fc : bool) (r : ContainerRecord) :
  valid_dates r = true ->
  Csv.read_line (Csv.to_line fc r) = Some (reload_record r).
Proof.
  unfold valid_dates. rewrite andb_true_iff. intros [Va Vd].
  unfold Csv.read_line, Csv.to_line.
  rewrite (read_date_date_cell _ Va), (read_date_date_cell _ Vd).
  rewrite read_number_number_cell. reflexivity.
Qed.

Lemma read_lines_map_to_line (fc : bool) (df : DataFrame) :
  forallb valid_dates df = true ->
  Csv.read_lines (map (Csv.to_line fc) df) = Some (map reload_record df).
Proof.
  induction df as [| r df IH]; [reflexivity |].
  cbn [forallb map Csv.read_lines]. rewrite andb_true_iff. intros [Hr Hdf].
  now rewrite read_line_to_line, IH.
Qed.

Lemma read_csv_lines (f : Csv.file) (df : DataFrame) :
  Csv.read_csv f = Some df -> Csv.read_lines f = Some df.
Proof.
  unfold Csv.read_csv.
  now destruct (Csv.keeps_text (Csv.column 0 f) && Csv.keeps_text (Csv.column 1 f)).
Qed.

Lemma text_columns_to_csv (df : DataFrame) :
  Csv.keeps_text (Csv.column 0 (Csv.to_csv df)) &&
  Csv.keeps_text (Csv.column 1 (Csv.to_csv df)) = text_columns_kept df.
Proof.
  unfold text_columns_kept, Csv.column, Csv.to_csv. now rewrite !map_map.
Qed.

(** Writing a table and reading the file back yields the reloaded rows, in
    the same order, when the text columns come back as text. *)
Lemma read_csv_to_csv (df : DataFrame) :
  forallb valid_dates df = true ->
  text_columns_kept df = true ->
  Csv.read_csv (Csv.to_csv df) = Some (map reload_record df).
Proof.
  intros V T. unfold Csv.read_csv. rewrite text_columns_to_csv, T.
  now apply read_lines_map_to_line.
Qed.

Lemma reload_record_id (r : ContainerRecord) :
  text_survives (customer_name r) = true ->
  text_survives (container_id r) = true ->
  reload_record r = r.
Proof.
  destruct r as [n i a d k]. unfold reload_record, text_survives. cbn.
  intros Hn Hi. f_equal.
  - destruct n as [s |]; cbn in *; [| reflexivity].
    unfold Csv.read_text. apply negb_true_iff in Hn. now rewrite Hn.
  - destruct i as [s |]; cbn in *; [| reflexivity].
    unfold Csv.read_text. apply negb_true_iff in Hi. now rewrite Hi.
Qed.

(** The round trip is exact for tables whose text columns come back as
    text and whose texts are no missing-value token. *)
Lemma read_csv_to_csv_exact (df : DataFrame) :
  forallb valid_dates df = true ->
  text_columns_kept df = true ->
  forallb (fun r => text_survives (customer_name r) &&
                    text_survives (container_id r)) df = true ->
  Csv.read_csv (Csv.to_csv df) = Some df.
Proof.
  intros V K T. rewrite read_csv_to_csv by assumption. f_equal. clear K.
  induction df as [| r df IH]; [reflexivity |].
  cbn [forallb map] in *. rewrite andb_true_iff in V, T.
  destruct V as [_ V], T as [Tr T]. rewrite andb_true_iff in Tr.
  rewrite reload_record_id by tauto. f_equal. auto.
Qed.

(** Every row read from a file has valid dates. *)
Lemma read_csv_valid_dates (f : Csv.file) (df : DataFrame) :
  Csv.read_csv f = Some df -> forallb valid_dates df = true.
Proof.
  intros H. apply read_csv_lines in H. revert df H.
  induction f as [| l f IH]; intros df; cbn [Csv.read_lines].
  - intros [= <-]. reflexivity.
  - destruct (Csv.read_line l) as [r |] eqn:El; [| discriminate].
    destruct (Csv.read_lines f) as [df' |]; [| discriminate].
    intros [= <-]. cbn [forallb]. rewrite (IH df' eq_refl), andb_true_r.
    unfold Csv.read_line in El.
    destruct l as [| n [| i [| a [| d [| k [| ? ?]]]]]]; try discriminate.
    destruct (Csv.read_date a) as [a' |] eqn:Ea; [| discriminate].
    destruct (Csv.read_date d) as [d' |] eqn:Ed; [| discriminate].
    destruct (Csv.read_number k) as [k' |]; [| discriminate].
    injection El as <-. unfold valid_dates; cbn.
    assert (G : forall s v, Csv.read_date s = Some v -> opt_valid v = true).
    { intros s v. unfold Csv.read_date.
      destruct (Csv.is_na_value s); [intros [= <-]; reflexivity |].
      destruct (fromisoformat s) as [x |] eqn:Ex; [| discriminate].
      intros [= <-]. cbn. unfold fromisoformat in Ex.
      repeat match type of Ex with
             | match ?t with _ => _ end = _ => destruct t eqn:?; try discriminate
             end.
      now injection Ex as <-. }
    now rewrite (G _ _ Ea), (G _ _ Ed).
Qed.

End CellFacts.

(** ** The sort *)

Section SortFacts.

Context {A : Type} (le : A -> A -> bool).
Hypothesis le_total : forall x y, le x y = true \/ le y x = true.

Let R (x y : A) : Prop := le x y = true.

Lemma insert_perm (x : A) (l : list A) : Permutation (insert le x l) (x :: l).
Proof.
  induction l as [| y l IH]; cbn; [reflexivity |].
  destruct (le x y); [reflexivity |].
  rewrite IH. apply perm_swap.
Qed.

Lemma sort_perm (l : list A) : Permutation (sort le l) l.
Proof.
  induction l as [| x l IH]; cbn; [reflexivity |].
  rewrite insert_perm. now constructor.
Qed.

Lemma insert_hdrel (a x : A) (l : list A) :
  R a x -> HdRel R a l -> HdRel R a (insert le x l).
Proof.
  intros Hax H. destruct l as [| y l]; cbn.
  - now constructor.
  - destruct (le x y); constructor; auto. now inversion H.
Qed.

Lemma insert_sorted (x : A) (l : list A) :
  Sorted R l -> Sorted R (insert le x l).
Proof.
  induction 1 as [| y l Hs IH Hd]; cbn.
  - repeat constructor.
  - destruct (le x y) eqn:E.
    + constructor; [now constructor | now constructor].
    + constructor; [exact IH |].
      apply insert_hdrel; [| exact Hd].
      destruct (le_total x y) as [H | H]; [congruence | exact H].
Qed.

Lemma sort_sorted (l : list A) : Sorted R (sort le l).
Proof.
  induction l as [| x l IH]; cbn; [constructor |].
  now apply insert_sorted.
Qed.

Lemma sort_In (x : A) (l : list A) : In x (sort le l) <-> In x l.
Proof.
  split; apply Permutation_in; [| symmetry]; apply sort_perm.
Qed.

Lemma sort_length (l : list A) : List.length (sort le l) = List.length l.
Proof. apply Permutation_length, sort_perm. Qed.

Lemma sort_NoDup (l : list A) : NoDup l -> NoDup (sort le l).
Proof.
  intros H. eapply Permutation_NoDup; [symmetry; apply sort_perm | exact H].
Qed.

End SortFacts.

(** ** Grouping and means *)

Section StatsFacts.

Lemma In_customer_names (df : DataFrame) (k : string) :
  In k (customer_names df) <-> exists r, In r df /\ customer_name r = Some k.
Proof.
  unfold customer_names. rewrite in_flat_map. split.
  - intros (r & Hr & Hk). exists r. split; [exact Hr |].
    destruct (customer_name r) as [n |]; cbn in Hk; [| contradiction].
    destruct Hk as [-> | []]. reflexivity.
  - intros (r & Hr & Hk). exists r. split; [exact Hr |].
    rewrite Hk. now left.
Qed.

Lemma In_group_keys (df : DataFrame) (k : string) :
  In k (group_keys df) <-> exists r, In r df /\ customer_name r = Some k.
Proof.
  unfold group_keys. rewrite sort_In, nodup_In. apply In_customer_names.
Qed.

Lemma NoDup_group_keys (df : DataFrame) : NoDup (group_keys df).
Proof. apply sort_NoDup, NoDup_nodup. Qed.

Lemma records_of_filter (df : DataFrame) (k : string) :
  filter (name_is k) df = Spec.records_of df k.
Proof.
  unfold Spec.records_of. apply filter_ext. intros r. unfold name_is.
  destruct (customer_name r) as [n |]; [| reflexivity].
  destruct (string_dec n k) as [-> | N].
  - apply String.eqb_refl.
  - now apply String.eqb_neq.
Qed.

Lemma dropna_present_days (rs : DataFrame) :
  dropna (map days_to_deliver rs) = Spec.present_days rs.
Proof.
  induction rs as [| r rs IH]; [reflexivity |].
  cbn. unfold dropna in *. cbn. rewrite IH.
  now destruct (days_to_deliver r).
Qed.

Lemma sum_fold (xs : list Z) : Stats.sum xs = fold_right Z.add 0 xs.
Proof. reflexivity. Qed.

(** The mean the code computes for a customer is the mean the
    specification speaks of. *)
Lemma mean_historical (df : DataFrame) (k : string) :
  Spec.same_mean (mean (map days_to_deliver (filter (name_is k) df)))
                 (Spec.historical_mean df k).
Proof.
  unfold mean, Spec.historical_mean.
  rewrite records_of_filter, dropna_present_days.
  destruct (Spec.present_days (Spec.records_of df k)) as [| x xs] eqn:E;
    cbn [Spec.same_mean]; [exact I |].
  rewrite Qmake_Qdiv. rewrite sum_fold.
  replace (Z.pos (Pos.of_nat (List.length (x :: xs))))
    with (Z.of_nat (List.length (x :: xs))); [reflexivity |].
  cbn [List.length]. rewrite <- Pos.of_nat_succ. now rewrite Zpos_P_of_succ_nat, Nat2Z.inj_succ.
Qed.

Lemma mean_None_iff (cells : list (option Z)) :
  mean cells = None <-> Forall (fun c => c = None) cells.
Proof.
  unfold mean, dropna. split.
  - intros H. induction cells as [| c cells IH]; [constructor |].
    destruct c as [z |]; cbn in H; [discriminate |].
    constructor; [reflexivity | now apply IH].
  - induction 1 as [| c cells Hc _ IH]; [reflexivity |].
    subst c. cbn. exact IH.
Qed.

Lemma nan_last_leb_total (a b : option Q) :
  nan_last_leb a b = true \/ nan_last_leb b a = true.
Proof.
  destruct a as [x |], b as [y |]; cbn; auto.
  rewrite !Qle_bool_iff. destruct (Qlt_le_dec x y) as [H | H]; auto.
  left. now apply Qlt_le_weak.
Qed.

Lemma nan_last_leb_spec (a b : option Q) :
  nan_last_leb a b = true <-> Spec.mean_le a b.
Proof.
  destruct a as [x |], b as [y |]; cbn; try tauto.
  - apply Qle_bool_iff.
  - split; [discriminate | contradiction].
Qed.

(** The rows of the statistics table are the groups, reordered. *)
Lemma customer_stats_perm (df : DataFrame) :
  Permutation (customer_stats df) (agg (groupby_days df)).
Proof. apply sort_perm. Qed.

Lemma stats_names_perm (df : DataFrame) :
  Permutation (map stats_customer_name (customer_stats df)) (group_keys df).
Proof.
  rewrite (Permutation_map _ (customer_stats_perm df)).
  unfold agg, groupby_days. rewrite !map_map. cbn.
  now rewrite map_id.
Qed.

Lemma In_customer_stats (df : DataFrame) (s : StatsRow) :
  In s (customer_stats df) <->
  exists k, In k (group_keys df) /\
            s = let cells := map days_to_deliver (filter (name_is k) df) in
                mkStats k (mean cells) (count cells).
Proof.
  unfold customer_stats, sort_values. rewrite sort_In.
  unfold agg, groupby_days. rewrite map_map, in_map_iff. cbn.
  split; intros (k & H1 & H2); exists k; [split; [exact H2 | now symmetry] |].
  split; [now symmetry | exact H1].
Qed.

(** The statistics table is in ascending order of mean, undefined means
    last. *)
Lemma customer_stats_sorted (df : DataFrame) :
  Sorted (fun a b => Spec.mean_le (avg_delivery_days a) (avg_delivery_days b))
         (customer_stats df).
Proof.
  pose proof (sort_sorted
    (fun r1 r2 => nan_last_leb (avg_delivery_days r1) (avg_delivery_days r2))
    (fun x y => nan_last_leb_total _ _) (agg (groupby_days df))) as H.
  unfold customer_stats, sort_values.
  induction H as [| a l Hs IH Hd]; constructor; auto.
  destruct Hd; constructor. now apply nan_last_leb_spec.
Qed.

End StatsFacts.

(** ** The merge of lines 132-134 *)

Section MergeFacts.

Lemma filter_unique_key (f : string -> option Q) (n : string) (keys : list string) :
  NoDup keys ->
  filter (fun kv : string * option Q => String.eqb n (fst kv))
         (map (fun k => (k, f k)) keys) =
  if in_dec string_dec n keys then [(n, f n)] else [].
Proof.
  induction 1 as [| k keys Hk Hnd IH]; [reflexivity |].
  cbn [map filter fst]. rewrite IH.
  destruct (String.eqb_spec n k) as [-> | N].
  - destruct (in_dec string_dec k (k :: keys)) as [_ | C]; [| elim C; now left].
    destruct (in_dec string_dec k keys) as [C | _]; [contradiction | reflexivity].
  - destruct (in_dec string_dec n keys) as [I | I];
      destruct (in_dec string_dec n (k :: keys)) as [J | J]; try reflexivity.
    + elim J. now right.
    + destruct J as [-> | J]; [now elim N | contradiction].
Qed.

Lemma customer_means_keys (df : DataFrame) :
  customer_means df =
  map (fun k => (k, mean (map days_to_deliver (filter (name_is k) df))))
      (group_keys df).
Proof. unfold customer_means, groupby_days. now rewrite map_map. Qed.

Lemma merge_row (df : DataFrame) (r : ContainerRecord) :
  In r df ->
  match filter (key_matches r) (customer_means df) with
  | [] => [(r, None)]
  | ms => map (fun kv => (r, snd kv)) ms
  end = [(r, merged_mean df r)].
Proof.
  intros Hr. rewrite customer_means_keys.
  unfold key_matches, name_is, merged_mean.
  destruct (customer_name r) as [n |] eqn:En.
  - rewrite filter_unique_key by apply NoDup_group_keys.
    destruct (in_dec string_dec n (group_keys df)) as [_ | C]; [reflexivity |].
    elim C. apply In_group_keys. now exists r.
  - replace (filter _ _) with (@nil (string * option Q)); [reflexivity |].
    induction (group_keys df); cbn; auto.
Qed.

(** The right table of the merge has one row per customer, so the merge
    keeps every left row exactly once and attaches its customer's mean. *)
Lemma merge_left_means (df left : DataFrame) :
  incl left df ->
  merge_left left (customer_means df) = map (fun r => (r, merged_mean df r)) left.
Proof.
  intros Hincl. unfold merge_left.
  induction left as [| r left IH]; [reflexivity |].
  cbn [flat_map]. rewrite IH by (intros x Hx; apply Hincl; now right).
  rewrite merge_row by (apply Hincl; now left). reflexivity.
Qed.

Lemma suggestions_rows (now : datetime) (df : DataFrame) :
  suggestions now df =
  map (fun r => mkPlacement r (merged_mean df r) (placement_rule (merged_mean df r)))
      (current_containers now df).
Proof.
  unfold suggestions. rewrite merge_left_means.
  - now rewrite map_map.
  - intros r Hr. unfold current_containers in Hr. now apply filter_In in Hr.
Qed.

Lemma merged_mean_spec (df : DataFrame) (r : ContainerRecord) :
  Spec.same_mean (merged_mean df r) (Spec.mean_of_record df r).
Proof.
  unfold merged_mean, Spec.mean_of_record.
  destruct (customer_name r); [apply mean_historical | exact I].
Qed.

End MergeFacts.

(** ** Placement Classifier: claims *)

Section PlacementClaims.

Lemma is_current_spec (now : datetime) (r : ContainerRecord) :
  valid_datetime now = true -> valid_dates r = true ->
  is_current now r = Spec.absent_or_future (dt_date now) r.
Proof.
  intros Vn Vr. unfold is_current, Spec.absent_or_future.
  destruct (delivery_date r) as [d |] eqn:E; [| reflexivity].
  rewrite timestamp_ltb by exact Vn.
  apply toordinal_ltb.
  - unfold valid_datetime in Vn. rewrite !andb_true_iff in Vn. tauto.
  - unfold valid_dates in Vr. rewrite E, andb_true_iff in Vr. tauto.
Qed.

Lemma date_ltb_asym (a b : date) :
  Spec.date_ltb a b = true -> Spec.date_ltb b a = true -> False.
Proof.
  unfold Spec.date_ltb.
  repeat rewrite ?orb_true_iff, ?andb_true_iff, ?Z.ltb_lt, ?Z.eqb_eq. lia.
Qed.

(** C1. Every row of the classifier's output carries the historical mean of
    its customer, taken over all records of the store; its placement is
    "Lower Level (Easy Access)" when that mean is at most 3 and "Upper Level
    (Long-term Storage)" otherwise; a mean of 5 gives the upper level. *)
Theorem C1_placement_rule (now : datetime) (df : DataFrame) (p : PlacementRow) :
  In p (suggestions now df) ->
  Spec.same_mean (customer_avg_delivery p) (Spec.mean_of_record df (row p)) /\
  (forall q, Spec.mean_of_record df (row p) = Some q -> (q <= 3)%Q ->
             placement p = "Lower Level (Easy Access)") /\
  (forall q, Spec.mean_of_record df (row p) = Some q -> ~ (q <= 3)%Q ->
             placement p = "Upper Level (Long-term Storage)") /\
  (Spec.mean_of_record df (row p) = None ->
   placement p = "Upper Level (Long-term Storage)") /\
  (forall q, Spec.mean_of_record df (row p) = Some q -> (q == 5)%Q ->
             placement p = "Upper Level (Long-term Storage)").
Proof.
  rewrite suggestions_rows, in_map_iff. intros (r & <- & _).
  cbn [customer_avg_delivery row placement].
  pose proof (merged_mean_spec df r) as S.
  assert (Rule : forall q, Spec.mean_of_record df r = Some q ->
            placement_rule (merged_mean df r) = if Qle_bool q 3 then LOWER else UPPER).
  { intros q Hq. rewrite Hq in S.
    destruct (merged_mean df r) as [x |]; cbn in S; [| contradiction].
    cbn [placement_rule]. now rewrite S. }
  split; [exact S |]. repeat split.
  - intros q Hq Hle. rewrite (Rule q Hq).
    apply Qle_bool_iff in Hle. now rewrite Hle.
  - intros q Hq Hnle. rewrite (Rule q Hq).
    destruct (Qle_bool q 3) eqn:E; [| reflexivity].
    elim Hnle. now apply Qle_bool_iff.
  - intros Hn. rewrite Hn in S.
    destruct (merged_mean df r); cbn in S; [contradiction | reflexivity].
  - intros q Hq H5. rewrite (Rule q Hq). rewrite H5. reflexivity.
Qed.

Lemma C1_placement_rule_witness :
  In (mkPlacement Sample.bolt_b2 (Some (10 # 2)) UPPER)
     (suggestions Sample.now Sample.yard) /\
  (forall q, Spec.mean_of_record Sample.yard Sample.bolt_b2 = Some q ->
             (q == 5)%Q -> UPPER = "Upper Level (Long-term Storage)").
Proof.
  assert (H : In (mkPlacement Sample.bolt_b2 (Some (10 # 2)) UPPER)
                 (suggestions Sample.now Sample.yard)).
  { vm_compute. right. left. reflexivity. }
  split; [exact H |].
  exact (proj2 (proj2 (proj2 (proj2
    (C1_placement_rule Sample.now Sample.yard _ H))))).
Defined.

(** C2. The classifier works on exactly the records of the store whose
    delivery date is absent or after the current date, in the order of the
    store; its output has one row for each of them and so holds no record
    whose delivery date is in the past. *)
Theorem C2_classifier_input (now : datetime) (df : DataFrame) :
  valid_datetime now = true ->
  forallb valid_dates df = true ->
  current_containers now df = filter (Spec.absent_or_future (dt_date now)) df /\
  map row (suggestions now df) = current_containers now df /\
  (forall p, In p (suggestions now df) ->
             ~ Spec.in_the_past (dt_date now) (row p)).
Proof.
  intros Vn Vdf.
  assert (E : current_containers now df =
              filter (Spec.absent_or_future (dt_date now)) df).
  { unfold current_containers. clear - Vn Vdf.
    induction df as [| r df IH]; [reflexivity |].
    cbn [forallb] in Vdf. rewrite andb_true_iff in Vdf. destruct Vdf as [Vr Vdf].
    cbn [filter]. rewrite (is_current_spec now r Vn Vr), (IH Vdf). reflexivity. }
  assert (M : map row (suggestions now df) = current_containers now df).
  { rewrite suggestions_rows, map_map. cbn [row]. apply map_id. }
  split; [exact E |]. split; [exact M |].
  intros p Hp (d & Hd & Hpast).
  assert (Hc : In (row p) (current_containers now df)).
  { rewrite <- M. now apply in_map. }
  rewrite E in Hc. apply filter_In in Hc. destruct Hc as [_ Hc].
  unfold Spec.absent_or_future in Hc. rewrite Hd in Hc.
  exact (date_ltb_asym _ _ Hc Hpast).
Qed.

Lemma C2_classifier_input_witness :
  valid_datetime Sample.now = true /\
  forallb valid_dates Sample.yard = true /\
  map row (suggestions Sample.now Sample.yard) =
  [Sample.acme_c2; Sample.bolt_b2; Sample.nova_n1].
Proof.
  assert (Vn : valid_datetime Sample.now = true) by reflexivity.
  assert (Vd : forallb valid_dates Sample.yard = true) by reflexivity.
  split; [exact Vn |]. split; [exact Vd |].
  rewrite (proj1 (proj2 (C2_classifier_input Sample.now Sample.yard Vn Vd))).
  reflexivity.
Defined.

(** In a table whose records have the days_to_deliver the specification
    asks for, a customer none of whose records has a delivery date has no
    days_to_deliver value either. *)
Lemma never_delivered_no_history (df : DataFrame) (name : option string) :
  (forall r, In r df -> Spec.days_to_deliver_ok r) ->
  Spec.never_delivered df name -> Spec.no_history df name.
Proof.
  intros Hok Hn r Hr Hname. specialize (Hok r Hr).
  unfold Spec.days_to_deliver_ok in Hok. now rewrite (Hn r Hr Hname) in Hok.
Qed.


(** The scenario of the specification: Acme, C1, 2024-01-01 to 2024-01-03
    has days_to_deliver 2, the mean of Acme is 2 and the container, seen on
    2024-01-02, goes to the lower level. *)
Example acme_scenario :
  suggestions (Sample.noon (mkDate 2024 1 2)) [Sample.acme_c1] =
  [mkPlacement Sample.acme_c1 (Some (2 # 1)) "Lower Level (Easy Access)"].
Proof. reflexivity. Qed.




End PlacementClaims.

(** ** Frames and their addresses *)

Section ObjectFacts.

Lemma nth_error_snoc {A : Type} (h : list A) (x : A) :
  nth_error (h ++ [x]) (List.length h) = Some x.
Proof. rewrite nth_error_app2, Nat.sub_diag by lia. reflexivity. Qed.

Lemma nth_error_old {A : Type} (h fs : list A) (l : nat) (x : A) :
  nth_error h l = Some x -> nth_error (h ++ fs) l = Some x.
Proof.
  intros H. rewrite nth_error_app1; [exact H |].
  apply nth_error_Some. congruence.
Qed.

(** An update in place of the newest frame leaves the older ones alone. *)
Lemma replace_snoc (h : list frame) (f g : frame) :
  replace (List.length h) g (h ++ [f]) = (h ++ [g])%list.
Proof. induction h as [| a h IH]; cbn; [reflexivity | now rewrite IH]. Qed.

Lemma store_spec (w : world) (df : DataFrame) :
  store w = Some df <->
  exists l, session_data w = Some l /\
            nth_error (objects w) l = Some (Records df).
Proof.
  unfold store, get_data. split.
  - destruct (session_data w) as [l |]; [| discriminate].
    destruct (nth_error (objects w) l) as [[rows | | | | ] |] eqn:E; try discriminate.
    intros [= <-]. now exists l.
  - intros (l & -> & ->). reflexivity.
Qed.

Lemma get_data_store (w : world) (df : DataFrame) :
  store w = Some df -> get_data w = Some (df, w).
Proof.
  intros H. apply store_spec in H. destruct H as (l & Hs & Hn).
  unfold get_data. now rewrite Hs, Hn.
Qed.

(** New frames do not change the table the session refers to. *)
Lemma store_extends (h fs : list frame) (s : option loc)
      (c c' : option Csv.file) (scr scr' : list ui) (df : DataFrame) :
  store (mkWorld h s c scr) = Some df ->
  store (mkWorld (h ++ fs) s c' scr') = Some df.
Proof.
  rewrite !store_spec. cbn. intros (l & -> & Hn).
  exists l. split; [reflexivity | now apply nth_error_old].
Qed.

Lemma store_None_get_data (w : world) :
  store w = None -> get_data w = None.
Proof.
  unfold store. destruct (get_data w) as [[df w'] |]; [discriminate | reflexivity].
Qed.

(** The table of the session depends on the frames and the reference
    alone. *)
Lemma store_irrel (h : list frame) (s : option loc)
      (c c' : option Csv.file) (scr scr' : list ui) :
  store (mkWorld h s c scr) = store (mkWorld h s c' scr').
Proof.
  unfold store, get_data. cbn.
  destruct s as [l |]; [| reflexivity].
  destruct (nth_error h l) as [[? | | | |] |]; reflexivity.
Qed.

Lemma store_newest (h : list frame) (c : option Csv.file) (scr : list ui)
      (df : DataFrame) :
  store (mkWorld (h ++ [Records df]) (Some (List.length h)) c scr) = Some df.
Proof. apply store_spec. eexists. split; [reflexivity | apply nth_error_snoc]. Qed.

Lemma extends_refl (w : world) : extends w w.
Proof. exists []. now rewrite app_nil_r. Qed.

Lemma extends_trans (w1 w2 w3 : world) :
  extends w1 w2 -> extends w2 w3 -> extends w1 w3.
Proof.
  intros [fs E] [gs F]. exists (fs ++ gs)%list. now rewrite F, E, app_assoc.
Qed.

(** The statistics page puts the statistics table of the store on the
    page, and neither builds a frame it keeps nor updates one. *)
Lemma view_customer_stats_effect (i : widgets) (w : world) (df : DataFrame) :
  store w = Some df ->
  exists scr,
    view_customer_stats i w =
      Some (tt, mkWorld (objects w) (session_data w) (container_data_csv w)
                        (screen w ++ scr)%list) /\
    (df <> [] -> In (st_dataframe_stats (customer_stats df)) scr).
Proof.
  intros Hs. unfold view_customer_stats, bind.
  rewrite (get_data_store w df Hs). unfold show. destruct w as [h s c scr0].
  cbn [objects session_data container_data_csv screen].
  destruct df as [| r df]; cbn [empty].
  - eexists. split; [reflexivity | intros H; now elim H].
  - match goal with
    | |- context [if ?c then _ else _] => destruct c
    end; cbn [ret objects session_data container_data_csv screen];
      rewrite <- ?app_assoc; eexists; (split; [reflexivity |]);
      intros _; cbn [app In]; auto.
Qed.

End ObjectFacts.

(** ** Statistics Engine: claims *)

Section StatsClaims.

#[local] Arguments customer_stats : simpl never.

(** What the statistics table holds, for any table of records: one row per
    distinct customer name, with the mean of the customer's present
    days_to_deliver values and the number of those values, in ascending
    order of mean. *)
Lemma customer_stats_rows (df : DataFrame) :
  NoDup (map stats_customer_name (customer_stats df)) /\
  (forall k, In k (map stats_customer_name (customer_stats df)) <->
             exists r, In r df /\ customer_name r = Some k) /\
  List.length (customer_stats df) =
    List.length (nodup string_dec (customer_names df)) /\
  (forall s, In s (customer_stats df) ->
     Spec.same_mean (avg_delivery_days s)
                    (Spec.historical_mean df (stats_customer_name s)) /\
     record_count s =
       Z.of_nat (List.length
                   (Spec.present_days (Spec.records_of df (stats_customer_name s))))) /\
  Sorted (fun a b => Spec.mean_le (avg_delivery_days a) (avg_delivery_days b))
         (customer_stats df).
Proof.
  repeat split.
  - eapply Permutation_NoDup; [symmetry; apply stats_names_perm |].
    apply NoDup_group_keys.
  - intros H. apply In_group_keys.
    eapply Permutation_in; [apply stats_names_perm | exact H].
  - intros H. eapply Permutation_in; [symmetry; apply stats_names_perm |].
    now apply In_group_keys.
  - rewrite <- (length_map stats_customer_name).
    rewrite (Permutation_length (stats_names_perm df)).
    unfold group_keys. apply sort_length.
  - apply In_customer_stats in H. destruct H as (k & _ & ->). cbn.
    apply mean_historical.
  - apply In_customer_stats in H. destruct H as (k & _ & ->). cbn.
    unfold count. now rewrite dropna_present_days, records_of_filter.
  - apply customer_stats_sorted.
Qed.

(** When every record has a days_to_deliver value, the count of a row is
    the number of the customer's records. *)
Lemma record_count_all_present (df : DataFrame) (s : StatsRow) :
  (forall r, In r df -> days_to_deliver r <> None) ->
  In s (customer_stats df) ->
  record_count s = Spec.number_of_records df (stats_customer_name s).
Proof.
  intros Hall Hs.
  destruct (customer_stats_rows df) as (_ & _ & _ & H & _).
  destruct (H s Hs) as [_ ->]. unfold Spec.number_of_records. do 2 f_equal.
  assert (G : forall rs, (forall r, In r rs -> days_to_deliver r <> None) ->
                         List.length (Spec.present_days rs) = List.length rs).
  { induction rs as [| r rs IH]; intros A; [reflexivity |]. cbn.
    destruct (days_to_deliver r) eqn:E.
    - cbn. f_equal. apply IH. intros; apply A; now right.
    - elim (A r (or_introl eq_refl)). exact E. }
  apply G. intros r Hr. apply Hall.
  unfold Spec.records_of in Hr. now apply filter_In in Hr.
Qed.

(** C3. A store read from a file whose only line is a container of Nova
    still in the yard: the statistics table has the one row of Nova, with an
    undefined mean, and its record_count is 0 although Nova has one record;
    this is the table the statistics page shows. *)
Theorem C3_record_count_not_number_of_records :
  Csv.read_csv Sample.nova_file = Some [Sample.nova_n1] /\
  customer_stats [Sample.nova_n1] = [mkStats "Nova" None 0] /\
  Spec.number_of_records [Sample.nova_n1] "Nova" = 1 /\
  match run_script Sample.stats_visit (mkWorld [] None (Some Sample.nova_file) []) with
  | Some (_, w) => In (st_dataframe_stats [mkStats "Nova" None 0]) (screen w)
  | None => False
  end.
Proof.
  split; [reflexivity |]. split; [reflexivity |]. split; [reflexivity |].
  vm_compute. left. reflexivity.
Qed.

(** C7. A customer all of whose records have an absent days_to_deliver has
    a row in the statistics table, and the mean of that row is the undefined
    value, not a number: in particular not zero; the statistics page shows
    the table with that row. *)
Theorem C7_all_absent_group_undefined (df : DataFrame) (k : string) :
  (exists r, In r df /\ customer_name r = Some k) ->
  (forall r, In r df -> customer_name r = Some k -> days_to_deliver r = None) ->
  (exists s, In s (customer_stats df) /\ stats_customer_name s = k) /\
  (forall s, In s (customer_stats df) -> stats_customer_name s = k ->
             avg_delivery_days s = None /\
             (forall q, (q == 0)%Q -> avg_delivery_days s <> Some q)) /\
  (forall i w, store w = Some df ->
     exists w', view_customer_stats i w = Some (tt, w') /\
                In (st_dataframe_stats (customer_stats df)) (screen w')).
Proof.
  intros Hex Hall. split; [| split].
  - destruct (customer_stats_rows df) as (_ & Hin & _).
    apply Hin in Hex. apply in_map_iff in Hex.
    destruct Hex as (s & Hs & Hin'). now exists s.
  - intros s Hs Hk. apply In_customer_stats in Hs.
    destruct Hs as (k' & _ & ->). cbn in Hk. subst k'. cbn.
    assert (Hm : mean (map days_to_deliver (filter (name_is k) df)) = None).
    { apply mean_None_iff, Forall_forall. intros c Hc.
      apply in_map_iff in Hc. destruct Hc as (r & <- & Hr).
      apply filter_In in Hr. destruct Hr as [Hin Hname].
      apply Hall; [exact Hin |].
      unfold name_is in Hname. destruct (customer_name r); [| discriminate].
      apply String.eqb_eq in Hname. now subst. }
    rewrite Hm. split; [reflexivity | discriminate].
  - intros i w Hd.
    destruct (view_customer_stats_effect i w df Hd) as (scr & -> & Hin).
    eexists. split; [reflexivity |]. cbn [screen]. apply in_or_app. right.
    apply Hin. destruct Hex as (r & Hr & _). intros ->. exact Hr.
Qed.

Lemma C7_all_absent_group_undefined_witness :
  (exists r, In r Sample.yard /\ customer_name r = Some "Nova") /\
  (exists s, In s (customer_stats Sample.yard) /\ stats_customer_name s = "Nova").
Proof.
  assert (H : exists r, In r Sample.yard /\ customer_name r = Some "Nova").
  { exists Sample.nova_n1. split; [| reflexivity].
    cbn. right. right. right. right. left. reflexivity. }
  split; [exact H |].
  refine (proj1 (C7_all_absent_group_undefined Sample.yard "Nova" H _)).
  intros r Hr. cbn in Hr.
  destruct Hr as [<- | [<- | [<- | [<- | [<- | []]]]]];
    first [ reflexivity | discriminate ].
Defined.

End StatsClaims.

(** ** The script: effects of a run *)

Section ScriptFacts.

Lemma set_frame_spec (f : frame) (w : world) :
  set_frame f w =
  Some (tt, mkWorld (objects w ++ [f])%list
                    (Some (List.length (objects w)))
                    (container_data_csv w) (screen w)).
Proof. reflexivity. Qed.

Lemma set_data_spec (df : DataFrame) (w : world) :
  set_data df w =
  Some (tt, mkWorld (objects w ++ [Records df])%list
                    (Some (List.length (objects w)))
                    (container_data_csv w) (screen w)).
Proof. reflexivity. Qed.

Lemma session_frame_newest (h : list frame) (c : option Csv.file)
      (scr : list ui) (f : frame) :
  session_frame (mkWorld (h ++ [f]) (Some (List.length h)) c scr) =
  Some (f, mkWorld (h ++ [f]) (Some (List.length h)) c scr).
Proof.
  unfold session_frame, read_frame.
  cbn [objects session_data container_data_csv screen].
  now rewrite nth_error_snoc.
Qed.

(** Saving writes the newest frame when the session refers to it. *)
Lemma save_data_newest (h : list frame) (c : option Csv.file)
      (scr : list ui) (f : frame) (text : Csv.file) :
  to_csv f = ret text ->
  save_data (mkWorld (h ++ [f]) (Some (List.length h)) c scr) =
  Some (tt, mkWorld (h ++ [f]) (Some (List.length h)) (Some text) scr).
Proof.
  intros E. unfold save_data. unfold bind at 1. rewrite session_frame_newest.
  unfold bind. now rewrite E.
Qed.

Lemma to_csv_concat (data new : DataFrame) :
  to_csv (concat data new) = ret (saved data new).
Proof. now destruct data. Qed.

Lemma session_rows_newest (h : list frame) (c : option Csv.file)
      (scr : list ui) (data new : DataFrame) :
  session_rows (mkWorld (h ++ [concat data new]) (Some (List.length h)) c scr) =
  Some (data ++ new)%list.
Proof.
  unfold session_rows. rewrite session_frame_newest. now destruct data.
Qed.

(** The prologue ends whenever there is a table to load. *)
Lemma prologue_total (w : world) (df : DataFrame) :
  loaded_data w = Some df -> exists w1, prologue w = Some (tt, w1).
Proof.
  destruct w as [h [l |] [f |] scr];
    unfold prologue, loaded_data, bind, clear_screen, init_session, load_data;
    cbn [objects session_data container_data_csv screen].
  - intros ->. eexists; reflexivity.
  - intros _. eexists; reflexivity.
  - rewrite set_data_spec. cbn [objects session_data container_data_csv screen].
    intros ->. eexists; reflexivity.
  - intros _. eexists; reflexivity.
Qed.

(** What the prologue leaves: the loaded table in the session, the file as
    it was, an empty page, and the older frames untouched. *)
Lemma prologue_effect (w w1 : world) :
  prologue w = Some (tt, w1) ->
  store w1 = loaded_data w /\
  container_data_csv w1 = container_data_csv w /\
  screen w1 = [] /\ extends w w1.
Proof.
  destruct w as [h [l |] [f |] scr];
    unfold prologue, loaded_data, bind, clear_screen, init_session, load_data;
    cbn [objects session_data container_data_csv screen];
    rewrite ?set_data_spec;
    cbn [objects session_data container_data_csv screen].
  - destruct (Csv.read_csv f) as [df |]; [| discriminate].
    rewrite set_data_spec. intros [= <-].
    split; [apply store_newest |]. repeat split. now exists [Records df].
  - intros [= <-]. split; [apply store_irrel |]. repeat split.
    exists []. cbn. now rewrite app_nil_r.
  - destruct (Csv.read_csv f) as [df |]; [| discriminate].
    rewrite set_data_spec. intros [= <-].
    split; [apply store_newest |]. repeat split.
    exists [Records empty_frame; Records df]. cbn. now rewrite <- app_assoc.
  - intros [= <-]. split; [apply (store_newest h None [] empty_frame) |].
    repeat split. now exists [Records empty_frame].
Qed.

Lemma run_script_prologue (i : widgets) (w : world) :
  run_script i w =
  match prologue w with
  | Some (_, w1) => branch i w1
  | None => None
  end.
Proof.
  unfold run_script, prologue, bind, branch.
  destruct (clear_screen w) as [[[] w0] |]; [| reflexivity].
  destruct (init_session w0) as [[[] w0'] |]; [| reflexivity].
  destruct (load_data w0') as [[[] w1] |]; [| reflexivity].
  now destruct (menu i).
Qed.

Lemma not_str_true (s : string) : not_str s = true <-> s = EmptyString.
Proof. destruct s; cbn; split; congruence. Qed.

(** The rejected submission: one message, nothing else. *)
Lemma add_record_handler_rejects (i : widgets) (w : world) :
  customer_name_input i = EmptyString \/ container_id_input i = EmptyString ->
  add_record_handler i w =
  Some (tt, mkWorld (objects w) (session_data w) (container_data_csv w)
                    (screen w ++ [st_error "Please fill in all fields"])%list).
Proof.
  intros H. unfold add_record_handler.
  replace (not_str (customer_name_input i) || not_str (container_id_input i))
    with true; [reflexivity |].
  symmetry. apply orb_true_iff. rewrite !not_str_true. exact H.
Qed.

(** Lines 60-70: a new frame holds the old rows and the new one, the
    session refers to it, and the file is rewritten from it. *)
Lemma add_record_store_spec (i : widgets) (w : world) (df : DataFrame) :
  store w = Some df ->
  add_record_store i w =
  Some (tt, mkWorld (objects w ++ [concat df (new_record i)])%list
                    (Some (List.length (objects w)))
                    (Some (saved df (new_record i)))
                    (screen w)).
Proof.
  intros Hd. unfold add_record_store.
  unfold bind at 1. rewrite (get_data_store w df Hd).
  unfold bind. rewrite set_frame_spec.
  now rewrite (save_data_newest _ _ _ _ _ (to_csv_concat df (new_record i))).
Qed.

Lemma accepted_fields (i : widgets) :
  customer_name_input i <> EmptyString ->
  container_id_input i <> EmptyString ->
  not_str (customer_name_input i) || not_str (container_id_input i) = false.
Proof.
  intros Hn Hi. apply orb_false_iff.
  split; apply not_true_is_false; rewrite not_str_true; assumption.
Qed.

(** The accepted submission on a table without rows: the new frame holds
    the record of the form, the file is rewritten from it, and the page
    shows the message and the table. *)
Lemma add_record_handler_appends (i : widgets) (w : world) :
  customer_name_input i <> EmptyString ->
  container_id_input i <> EmptyString ->
  store w = Some empty_frame ->
  add_record_handler i w =
  Some (tt, mkWorld (objects w ++ [Records (new_record i)])%list
                    (Some (List.length (objects w)))
                    (Some (Csv.to_csv (new_record i)))
                    (screen w ++ [st_success "Record added successfully!";
                                  st_dataframe (tail (new_record i))])%list).
Proof.
  intros Hn Hi Hd. unfold add_record_handler.
  rewrite (accepted_fields i Hn Hi).
  unfold bind at 1. rewrite (add_record_store_spec i w _ Hd).
  unfold bind at 1, show at 1.
  cbn [objects session_data container_data_csv screen concat empty_frame saved].
  unfold show_tail, bind. rewrite session_frame_newest.
  unfold show. cbn [objects session_data container_data_csv screen].
  now rewrite <- app_assoc.
Qed.

(** The accepted submission on a table with rows: lines 60-71 are carried
    out, and line 74 meets a table of Timestamps and [datetime.date]
    values. *)
Lemma add_record_handler_mixed (i : widgets) (w : world)
      (r : ContainerRecord) (df : DataFrame) :
  customer_name_input i <> EmptyString ->
  container_id_input i <> EmptyString ->
  store w = Some (r :: df) ->
  add_record_handler i w = None.
Proof.
  intros Hn Hi Hd. unfold add_record_handler.
  rewrite (accepted_fields i Hn Hi).
  unfold bind at 1. rewrite (add_record_store_spec i w _ Hd).
  unfold bind at 1, show at 1.
  cbn [objects session_data container_data_csv screen concat].
  unfold show_tail, bind. now rewrite session_frame_newest.
Qed.

Lemma export_handler_effect (w : world) (df : DataFrame) :
  store w = Some df ->
  export_handler w =
  Some (tt, mkWorld (objects w) (session_data w) (container_data_csv w)
                    (screen w ++ [st_dataframe df;
                                  st_download_button "Download Data as CSV"
                                    (Csv.to_csv df) "container_yard_data.csv"])%list).
Proof.
  intros Hd. unfold export_handler, bind. rewrite (get_data_store w df Hd).
  unfold show. cbn [objects session_data container_data_csv screen].
  now rewrite <- app_assoc.
Qed.

(** The clear action either changes nothing but the page or puts an empty
    table in the session and an empty file on disk. *)
Lemma clear_handler_effect (i : widgets) (w : world) :
  exists scr,
    clear_handler i w =
      Some (tt, mkWorld (objects w) (session_data w) (container_data_csv w) scr) \/
    clear_handler i w =
      Some (tt, mkWorld (objects w ++ [Records empty_frame])%list
                        (Some (List.length (objects w)))
                        (Some (Csv.to_csv empty_frame)) scr).
Proof.
  destruct w as [h s c scr0]. unfold clear_handler.
  cbn [objects session_data container_data_csv screen].
  destruct (clear_all_data_button i); [| eexists; left; reflexivity].
  destruct (confirm_delete_button i).
  - eexists. right. unfold bind at 1, show.
    unfold bind at 1. rewrite set_data_spec.
    cbn [objects session_data container_data_csv screen].
    unfold bind at 1.
    rewrite (save_data_newest _ _ _ (Records empty_frame) _ eq_refl).
    reflexivity.
  - eexists. left. reflexivity.
Qed.

(** The operations of the placement page on frames. *)

Lemma merge_spec (h : list frame) (s : option loc) (c : option Csv.file)
      (scr : list ui) (l r : loc) (rows : DataFrame)
      (means : list (string * option Q)) :
  nth_error h l = Some (Records rows) ->
  nth_error h r = Some (Means means) ->
  merge l r (mkWorld h s c scr) =
  Some (List.length h,
        mkWorld (h ++ [Merged "days_to_deliver_y" (merge_left rows means)])%list
                s c scr).
Proof.
  intros Hl Hr. unfold merge, bind, read_frame.
  cbn [objects session_data container_data_csv screen]. rewrite Hl.
  cbn [objects session_data container_data_csv screen]. now rewrite Hr.
Qed.

Lemma rename_inplace_spec (h : list frame) (s : option loc)
      (c : option Csv.file) (scr : list ui) (label old new : string)
      (rows : list (ContainerRecord * option Q)) :
  rename_inplace (List.length h) old new
                 (mkWorld (h ++ [Merged label rows])%list s c scr) =
  Some (tt, mkWorld (h ++ [Merged (if String.eqb label old then new else label)
                                  rows])%list s c scr).
Proof.
  unfold rename_inplace, bind, read_frame, write_frame.
  cbn [objects session_data container_data_csv screen].
  rewrite nth_error_snoc.
  cbn [objects session_data container_data_csv screen].
  now rewrite replace_snoc.
Qed.

Lemma assign_placement_spec (h : list frame) (s : option loc)
      (c : option Csv.file) (scr : list ui) (column : string)
      (rows : list (ContainerRecord * option Q)) :
  assign_placement (List.length h) column
                   (mkWorld (h ++ [Merged column rows])%list s c scr) =
  Some (tt, mkWorld (h ++ [Placed (map (fun m => mkPlacement (fst m) (snd m)
                                                  (placement_rule (snd m)))
                                       rows)])%list s c scr).
Proof.
  unfold assign_placement, bind, read_frame, write_frame.
  cbn [objects session_data container_data_csv screen].
  rewrite nth_error_snoc, String.eqb_refl.
  cbn [objects session_data container_data_csv screen].
  now rewrite replace_snoc.
Qed.

Lemma read_placed_spec (h : list frame) (s : option loc)
      (c : option Csv.file) (scr : list ui) (rows : list PlacementRow) :
  read_placed (List.length h) (mkWorld (h ++ [Placed rows])%list s c scr) =
  Some (rows, mkWorld (h ++ [Placed rows])%list s c scr).
Proof.
  unfold read_placed, bind, read_frame.
  cbn [objects session_data container_data_csv screen].
  now rewrite nth_error_snoc.
Qed.

(** The placement page builds three frames of its own, updates the third in
    place, shows the classifier's table, and leaves every older frame, the
    session's reference and the file as they were. *)
Lemma container_placement_suggestions_effect
      (i : widgets) (w : world) (df : DataFrame) :
  store w = Some df ->
  exists fs scr,
    container_placement_suggestions i w =
      Some (tt, mkWorld (objects w ++ fs)%list (session_data w)
                        (container_data_csv w) (screen w ++ scr)%list) /\
    (current_containers (today i) df <> [] ->
     fs = [Records (current_containers (today i) df);
           Means (customer_means df);
           Placed (suggestions (today i) df)] /\
     In (st_dataframe_placement (map placement_view (suggestions (today i) df)))
        scr).
Proof.
  intros Hd. unfold container_placement_suggestions.
  unfold bind at 1. rewrite (get_data_store w df Hd).
  destruct w as [h s c scr0].
  cbn [objects session_data container_data_csv screen].
  destruct (empty df) eqn:Edf.
  - exists [], [st_warning "No data available. Please add records first."].
    rewrite app_nil_r. split; [reflexivity |].
    intros H. elim H. destruct df; [reflexivity | discriminate].
  - unfold bind at 1, new_frame.
    cbn [objects session_data container_data_csv screen].
    destruct (empty (current_containers (today i) df)) eqn:Ecur.
    + eexists [_], [_]. split; [reflexivity |].
      intros H. elim H.
      destruct (current_containers (today i) df); [reflexivity | discriminate].
    + set (cur := current_containers (today i) df).
      set (h1 := (h ++ [Records cur])%list).
      unfold bind at 1.
      cbn [objects session_data container_data_csv screen]. fold h1.
      set (h2 := (h1 ++ [Means (customer_means df)])%list).
      unfold bind at 1.
      rewrite (merge_spec h2 s c scr0 (List.length h) (List.length h1)
                 cur (customer_means df));
        [| apply nth_error_old, nth_error_snoc | apply nth_error_snoc].
      unfold bind at 1. rewrite rename_inplace_spec. cbn [String.eqb Ascii.eqb Bool.eqb].
      unfold bind at 1. rewrite assign_placement_spec.
      unfold bind at 1. rewrite read_placed_spec.
      unfold bind, show. cbn [objects session_data container_data_csv screen].
      exists [Records cur; Means (customer_means df); Placed (suggestions (today i) df)].
      eexists. split.
      * unfold h2, h1, suggestions. fold cur.
        rewrite <- !app_assoc. cbn [app]. reflexivity.
      * intros _. split; [reflexivity |]. left. reflexivity.
Qed.

End ScriptFacts.

(** ** The menu branches *)

Section Branches.

Lemma store_untouched (w w' : world) (df : DataFrame) :
  untouched w w' -> store w = Some df -> store w' = Some df.
Proof.
  intros (Hs & _ & fs & Ho). rewrite !store_spec. intros (l & Hl & Hn).
  exists l. split; [congruence |]. rewrite Ho. now apply nth_error_old.
Qed.

(** What a menu branch does to the table and the file: nothing, or the
    record of the form put into a table without rows and the file rewritten,
    or both emptied.  It never updates a frame that was there before.  The
    one branch that does not end this way is the accepted submission on a
    table with rows. *)
Lemma branch_effect (i : widgets) (w : world) (df : DataFrame) :
  store w = Some df ->
  (accepted i /\ df <> [] /\ branch i w = None) \/
  exists w',
    branch i w = Some (tt, w') /\ extends w w' /\
    ((store w' = Some df /\ untouched w w') \/
     (df = [] /\ store w' = Some (new_record i) /\
      container_data_csv w' = Some (Csv.to_csv (new_record i)) /\
      accepted i) \/
     (store w' = Some empty_frame /\
      container_data_csv w' = Some (Csv.to_csv empty_frame) /\
      menu i = DataManagement)).
Proof.
  intros Hd.
  assert (Same : forall scr,
            let w' := mkWorld (objects w) (session_data w) (container_data_csv w) scr in
            extends w w' /\ store w' = Some df /\ untouched w w').
  { intros scr w'.
    assert (E : extends w w') by (exists []; cbn; now rewrite app_nil_r).
    assert (U : untouched w w') by (repeat split; exact E).
    split; [exact E |]. split; [| exact U]. now apply (store_untouched w). }
  unfold branch. destruct (menu i) eqn:Em.
  - unfold add_new_record. destruct (add_record_button i) eqn:Eb.
    + destruct (string_dec (customer_name_input i) EmptyString) as [En | En];
        [| destruct (string_dec (container_id_input i) EmptyString) as [Ei | Ei]].
      * right. rewrite add_record_handler_rejects by auto.
        eexists. split; [reflexivity |].
        destruct (Same (screen w ++ [st_error "Please fill in all fields"])%list)
          as (E & S & U). auto.
      * right. rewrite add_record_handler_rejects by auto.
        eexists. split; [reflexivity |].
        destruct (Same (screen w ++ [st_error "Please fill in all fields"])%list)
          as (E & S & U). auto.
      * assert (A : accepted i) by (repeat split; assumption).
        destruct df as [| r df].
        -- right. rewrite (add_record_handler_appends i w En Ei Hd).
           eexists. split; [reflexivity |].
           split; [eexists; reflexivity |]. right. left.
           split; [reflexivity |]. split; [apply store_newest | auto].
        -- left. split; [exact A |]. split; [discriminate |].
           exact (add_record_handler_mixed i w r df En Ei Hd).
    + right. destruct w as [h s c scr]. eexists. split; [reflexivity |].
      destruct (Same scr) as (E & S & U). auto.
  - right. destruct (view_customer_stats_effect i w df Hd) as (scr & -> & _).
    eexists. split; [reflexivity |].
    destruct (Same (screen w ++ scr)%list) as (E & S & U). auto.
  - right. destruct (container_placement_suggestions_effect i w df Hd)
      as (fs & scr & -> & _).
    eexists. split; [reflexivity |].
    assert (E : extends w (mkWorld (objects w ++ fs)%list (session_data w)
                                   (container_data_csv w) (screen w ++ scr)%list))
      by (eexists; reflexivity).
    split; [exact E |]. left.
    assert (U : untouched w (mkWorld (objects w ++ fs)%list (session_data w)
                                     (container_data_csv w) (screen w ++ scr)%list))
      by (repeat split; exact E).
    split; [now apply (store_untouched w) | exact U].
  - right. unfold data_management. unfold bind at 1. rewrite (get_data_store w df Hd).
    destruct (negb (empty df)).
    + unfold bind. rewrite (export_handler_effect w df Hd).
      match goal with
      | |- context [clear_handler i ?w1] =>
          destruct (clear_handler_effect i w1) as [scr [-> | ->]]
      end; cbn [objects session_data container_data_csv screen].
      * eexists. split; [reflexivity |].
        destruct (Same scr) as (E & S & U). auto.
      * eexists. split; [reflexivity |].
        split; [eexists; reflexivity |]. right. right.
        split; [apply store_newest | auto].
    + unfold show. eexists. split; [reflexivity |].
      destruct (Same (screen w ++ [st_info "No data available to manage."])%list)
        as (E & S & U). auto.
Qed.

End Branches.

(** ** The script: claims *)

Section ScriptClaims.

Example acme_days_to_deliver :
  new_record Sample.acme_form = [Sample.acme_c1] /\
  days_to_deliver Sample.acme_c1 = Some 2 /\
  Spec.add_days 2 (mkDate 2024 1 1) = mkDate 2024 1 3 /\
  calculate_days (mkDate 2024 1 1) (Some (mkDate 2024 1 3)) = Some 2.
Proof. repeat split. Qed.

Lemma new_record_valid_dates (i : widgets) :
  valid_widgets i = true -> forallb valid_dates (new_record i) = true.
Proof.
  unfold valid_widgets. rewrite andb_true_iff. intros [Va Vd].
  cbn. unfold valid_dates; cbn. now rewrite Va, Vd.
Qed.




(** C5. A store holding one record of a customer named NA is written as the
    line NA,C7,2024-01-01,2024-01-04,3 and read back with the customer name
    missing; a session that adds this record sees it without its customer
    name on the next run. *)
Theorem C5_round_trip_loses_name :
  Csv.to_csv [Sample.na_c7] = [["NA"; "C7"; "2024-01-01"; "2024-01-04"; "3"]] /\
  Csv.read_csv (Csv.to_csv [Sample.na_c7]) =
    Some [mkRecord None (Some "C7") (Some (mkDate 2024 1 1))
                   (Some (mkDate 2024 1 4)) (Some 3)] /\
  Csv.read_csv (Csv.to_csv [Sample.na_c7]) <> Some [Sample.na_c7] /\
  match run_script Sample.na_form fresh with
  | Some (_, w1) =>
      store w1 = Some [Sample.na_c7] /\
      match run_script Sample.stats_visit w1 with
      | Some (_, w2) =>
          store w2 =
            Some [mkRecord None (Some "C7") (Some (mkDate 2024 1 1))
                           (Some (mkDate 2024 1 4)) (Some 3)]
      | None => False
      end
  | None => False
  end.
Proof.
  split; [reflexivity |]. split; [reflexivity |]. split; [discriminate |].
  vm_compute. split; reflexivity.
Qed.

(** C8. A submission whose customer name or container id is empty shows the
    message "Please fill in all fields" and changes neither the store nor
    the persisted file: no record is appended and nothing is saved.  Over a
    whole run the store is the table the prologue loaded. *)
Theorem C8_empty_field_rejected (i : widgets) (w : world) :
  customer_name_input i = EmptyString \/ container_id_input i = EmptyString ->
  add_record_handler i w =
    Some (tt, mkWorld (objects w) (session_data w) (container_data_csv w)
                      (screen w ++ [st_error "Please fill in all fields"])%list) /\
  (menu i = AddNewRecord -> add_record_button i = true ->
   forall df, loaded_data w = Some df ->
     exists w', run_script i w = Some (tt, w') /\
                store w' = Some df /\
                container_data_csv w' = container_data_csv w /\
                screen w' = [st_error "Please fill in all fields"]).
Proof.
  intros H. split; [now apply add_record_handler_rejects |].
  intros Em Eb df Hl.
  destruct (prologue_total w df Hl) as [w1 Hp].
  destruct (prologue_effect w w1 Hp) as (Hs1 & Hf1 & Hscr & _).
  rewrite run_script_prologue, Hp. unfold branch, add_new_record.
  rewrite Em, Eb, add_record_handler_rejects by exact H.
  eexists. split; [reflexivity |].
  cbn [container_data_csv screen]. rewrite Hscr. repeat split; [| exact Hf1].
  destruct w1 as [h s c scr]. rewrite <- Hl, <- Hs1. apply store_irrel.
Qed.

Lemma C8_empty_field_rejected_witness :
  (customer_name_input Sample.nameless_form = EmptyString \/
   container_id_input Sample.nameless_form = EmptyString) /\
  add_record_handler Sample.nameless_form Sample.yard_world =
    Some (tt, mkWorld [Records Sample.yard] (Some 0%nat)
                      (Some (Csv.to_csv Sample.yard))
                      [st_error "Please fill in all fields"]).
Proof.
  assert (H : customer_name_input Sample.nameless_form = EmptyString \/
              container_id_input Sample.nameless_form = EmptyString).
  { left. reflexivity. }
  split; [exact H |].
  exact (proj1 (C8_empty_field_rejected Sample.nameless_form Sample.yard_world H)).
Defined.

(** C9. A submission with a customer name and a container id: lines 59-70
    put in the session a new frame that holds the records of the store, as
    they were and in their order, followed by the new record, and write that
    table to the persisted file in the same handler invocation, one line
    for each record, each line holding its record; no frame that existed is
    updated.  The handler then goes on with the message of line 71 and the
    table of line 74, and a submission to a store without records ends with
    the new record in the store and in the file. *)
Theorem C9_valid_submission_appends (i : widgets) (w : world) (df : DataFrame) :
  customer_name_input i <> EmptyString ->
  container_id_input i <> EmptyString ->
  valid_widgets i = true ->
  forallb valid_dates df = true ->
  store w = Some df ->
  exists w' df' f,
    add_record_store i w = Some (tt, w') /\
    session_rows w' = Some df' /\
    df' = (df ++ [mkRecord (Some (customer_name_input i))
                           (Some (container_id_input i))
                           (Some (arrival_date_input i))
                           (Some (delivery_date_input i))
                           (Some (toordinal (delivery_date_input i) -
                                  toordinal (arrival_date_input i)))])%list /\
    firstn (List.length df) df' = df /\
    List.length df' = S (List.length df) /\
    extends w w' /\
    container_data_csv w' = Some f /\
    Forall2 Spec.line_holds f df' /\
    List.length f = List.length df' /\
    add_record_handler i w =
      (show (st_success "Record added successfully!") ;; show_tail) w' /\
    (df = [] ->
     exists w'', add_record_handler i w = Some (tt, w'') /\
                 store w'' = Some df' /\
                 container_data_csv w'' = Some f /\
                 extends w w'').
Proof.
  intros Hn Hi Vi Vdf Hd.
  pose proof (lines_hold_saved df (new_record i) Vdf (new_record_valid_dates i Vi))
    as HL.
  eexists. exists (df ++ new_record i)%list, (saved df (new_record i)).
  split; [exact (add_record_store_spec i w df Hd) |].
  split; [apply session_rows_newest |].
  split; [reflexivity |].
  split; [now rewrite firstn_app, firstn_all, Nat.sub_diag, app_nil_r |].
  split; [rewrite length_app; cbn; lia |].
  split; [eexists; reflexivity |].
  split; [reflexivity |].
  split; [exact HL |].
  split; [exact (Forall2_length HL) |].
  split.
  - unfold add_record_handler. rewrite (accepted_fields i Hn Hi).
    unfold bind at 1. now rewrite (add_record_store_spec i w df Hd).
  - intros ->. rewrite (add_record_handler_appends i w Hn Hi Hd).
    eexists. split; [reflexivity |].
    split; [apply store_newest |]. split; [reflexivity |].
    eexists; reflexivity.
Qed.

Lemma C9_valid_submission_appends_witness :
  customer_name_input Sample.acme_form <> EmptyString /\
  container_id_input Sample.acme_form <> EmptyString /\
  valid_widgets Sample.acme_form = true /\
  forallb valid_dates Sample.yard = true /\
  store Sample.yard_world = Some Sample.yard /\
  exists w' df' f,
    add_record_store Sample.acme_form Sample.yard_world = Some (tt, w') /\
    session_rows w' = Some df' /\
    df' = (Sample.yard ++ [Sample.acme_c1])%list /\
    container_data_csv w' = Some f /\
    Forall2 Spec.line_holds f df'.
Proof.
  assert (Hn : customer_name_input Sample.acme_form <> EmptyString) by discriminate.
  assert (Hi : container_id_input Sample.acme_form <> EmptyString) by discriminate.
  assert (Vi : valid_widgets Sample.acme_form = true) by reflexivity.
  assert (Vd : forallb valid_dates Sample.yard = true) by reflexivity.
  assert (Hd : store Sample.yard_world = Some Sample.yard) by reflexivity.
  split; [exact Hn |]. split; [exact Hi |]. split; [exact Vi |].
  split; [exact Vd |]. split; [exact Hd |].
  destruct (C9_valid_submission_appends Sample.acme_form Sample.yard_world
              Sample.yard Hn Hi Vi Vd Hd)
    as (w' & df' & f & H1 & H2 & H3 & _ & _ & _ & H4 & H5 & _).
  exists w', df', f. repeat split; assumption.
Defined.

(** C10. Viewing the customer statistics, viewing the placement suggestions
    and exporting the table end with the store they started with: the
    session still refers to the same frame, no frame that existed was
    updated in place, and the persisted file is as it was.  A whole run on
    one of these pages leaves the file as it was and the store as the
    prologue loaded it. *)
Theorem C10_read_only_pages (i : widgets) (w : world) (df : DataFrame) :
  store w = Some df ->
  (exists w', view_customer_stats i w = Some (tt, w') /\
              store w' = Some df /\ untouched w w') /\
  (exists w', container_placement_suggestions i w = Some (tt, w') /\
              store w' = Some df /\ untouched w w') /\
  (exists w', export_handler w = Some (tt, w') /\
              store w' = Some df /\ untouched w w') /\
  (forall w',
     menu i = ViewCustomerStats \/ menu i = ContainerPlacementSuggestions \/
     (menu i = DataManagement /\ clear_all_data_button i = false) ->
     run_script i w = Some (tt, w') ->
     container_data_csv w' = container_data_csv w /\
     store w' = loaded_data w).
Proof.
  intros Hd.
  assert (Frame : forall w0 df0 fs scr,
            store w0 = Some df0 ->
            let w' := mkWorld (objects w0 ++ fs)%list (session_data w0)
                              (container_data_csv w0) scr in
            store w' = Some df0 /\ untouched w0 w').
  { intros w0 df0 fs scr H0 w'.
    assert (U : untouched w0 w') by (repeat split; eexists; reflexivity).
    split; [now apply (store_untouched w0) | exact U]. }
  assert (Frame0 : forall w0 df0 scr,
            store w0 = Some df0 ->
            let w' := mkWorld (objects w0) (session_data w0)
                              (container_data_csv w0) scr in
            store w' = Some df0 /\ untouched w0 w').
  { intros w0 df0 scr H0 w'. pose proof (Frame w0 df0 [] scr H0) as F.
    cbn zeta in F. now rewrite app_nil_r in F. }
  split; [| split; [| split]].
  - destruct (view_customer_stats_effect i w df Hd) as (scr & -> & _).
    eexists. split; [reflexivity | now apply Frame0].
  - destruct (container_placement_suggestions_effect i w df Hd)
      as (fs & scr & -> & _).
    eexists. split; [reflexivity | now apply Frame].
  - rewrite (export_handler_effect w df Hd).
    eexists. split; [reflexivity | now apply Frame0].
  - intros w' Hm. rewrite run_script_prologue.
    destruct (prologue w) as [[[] w1] |] eqn:Hp; [| discriminate].
    destruct (prologue_effect w w1 Hp) as (Hs1 & Hf1 & _ & _).
    destruct (store w1) as [df1 |] eqn:Hd1.
    + unfold branch. destruct Hm as [-> | [-> | [-> Ec]]].
      * destruct (view_customer_stats_effect i w1 df1 Hd1) as (scr & -> & _).
        intros [= <-]. destruct (Frame0 w1 df1 (screen w1 ++ scr)%list Hd1) as [S _].
        cbn [container_data_csv]. split; [exact Hf1 | congruence].
      * destruct (container_placement_suggestions_effect i w1 df1 Hd1)
          as (fs & scr & -> & _).
        intros [= <-]. destruct (Frame w1 df1 fs (screen w1 ++ scr)%list Hd1) as [S _].
        cbn [container_data_csv]. split; [exact Hf1 | congruence].
      * unfold data_management. unfold bind at 1.
        rewrite (get_data_store w1 df1 Hd1).
        destruct (negb (empty df1)).
        -- unfold bind. rewrite (export_handler_effect w1 df1 Hd1).
           unfold clear_handler. rewrite Ec. unfold ret. intros [= <-].
           match goal with
           | |- context [mkWorld _ _ _ ?scr] =>
               destruct (Frame0 w1 df1 scr Hd1) as [S _]
           end.
           cbn [container_data_csv]. split; [exact Hf1 | congruence].
        -- unfold show. intros [= <-].
           match goal with
           | |- context [mkWorld _ _ _ ?scr] =>
               destruct (Frame0 w1 df1 scr Hd1) as [S _]
           end.
           cbn [container_data_csv]. split; [exact Hf1 | congruence].
    + unfold branch. apply store_None_get_data in Hd1.
      destruct Hm as [-> | [-> | [-> Ec]]];
        unfold view_customer_stats, container_placement_suggestions,
          data_management, bind; rewrite Hd1; discriminate.
Qed.

Lemma C10_read_only_pages_witness :
  store Sample.yard_world = Some Sample.yard /\
  exists w', export_handler Sample.yard_world = Some (tt, w') /\
             store w' = Some Sample.yard /\ untouched Sample.yard_world w'.
Proof.
  assert (H : store Sample.yard_world = Some Sample.yard) by reflexivity.
  split; [exact H |].
  exact (proj1 (proj2 (proj2
    (C10_read_only_pages Sample.stats_visit Sample.yard_world Sample.yard H)))).
Defined.

End ScriptClaims.

(** * Further properties of the script *)

(** ** Saving and loading *)

Section SaveLoad.

(** X1. A table whose date columns are typed as a whole, with dates of the
    calendar, and whose two text columns come back from the file as text, is
    read back from the file it was written to with as many rows, in the same
    order, each with the dates and the days_to_deliver it had, and with
    every text that is no missing-value token. *)
Theorem X1_save_load_keeps_dates_and_days (df : DataFrame) :
  forallb valid_dates df = true ->
  text_columns_kept df = true ->
  exists df',
    Csv.read_csv (Csv.to_csv df) = Some df' /\
    List.length df' = List.length df /\
    map dates_and_days df' = map dates_and_days df /\
    Forall2 (fun r' r =>
               (text_survives (customer_name r) = true ->
                customer_name r' = customer_name r) /\
               (text_survives (container_id r) = true ->
                container_id r' = container_id r)) df' df.
Proof.
  intros V K. exists (map reload_record df).
  split; [now apply read_csv_to_csv |].
  split; [apply length_map |].
  split; [rewrite map_map; apply map_ext; intros r; reflexivity |].
  clear V K. induction df as [| r df IH]; [constructor |].
  cbn [map]. constructor; [| exact IH].
  destruct r as [n i a d k]. unfold reload_record, text_survives.
  cbn [customer_name container_id].
  split.
  - destruct n as [t |]; [| reflexivity]. cbn [Csv.text_cell].
    unfold Csv.read_text. now destruct (Csv.is_na_value t).
  - destruct i as [t |]; [| reflexivity]. cbn [Csv.text_cell].
    unfold Csv.read_text. now destruct (Csv.is_na_value t).
Qed.

Lemma X1_save_load_keeps_dates_and_days_witness :
  forallb valid_dates Sample.yard = true /\
  text_columns_kept Sample.yard = true /\
  exists df',
    Csv.read_csv (Csv.to_csv Sample.yard) = Some df' /\
    List.length df' = 5%nat.
Proof.
  assert (V : forallb valid_dates Sample.yard = true) by reflexivity.
  assert (K : text_columns_kept Sample.yard = true) by reflexivity.
  split; [exact V |]. split; [exact K |].
  destruct (X1_save_load_keeps_dates_and_days Sample.yard V K) as (df' & H1 & H2 & _).
  exists df'. split; [exact H1 | exact H2].
Defined.

End SaveLoad.

(** ** Runs of the script *)

Section Runs.

Lemma prologue_reads_file (w w1 : world) (f : Csv.file) :
  container_data_csv w = Some f -> prologue w = Some (tt, w1) ->
  exists df, Csv.read_csv f = Some df /\ store w1 = Some df.
Proof.
  intros Hf Hp. destruct (prologue_effect w w1 Hp) as (Hs & _).
  unfold loaded_data in Hs. rewrite Hf in Hs.
  destruct (Csv.read_csv f) as [df |] eqn:E; [now exists df |].
  exfalso. revert Hp.
  destruct w as [h [l |] c scr]; cbn in Hf; subst c;
    unfold prologue, bind, clear_screen, init_session, load_data;
    cbn [objects session_data container_data_csv screen];
    rewrite ?set_data_spec;
    cbn [objects session_data container_data_csv screen];
    rewrite E; discriminate.
Qed.

(** The data page of an empty store shows one message and does nothing
    else, whatever buttons are pressed. *)
Lemma data_management_empty (i : widgets) (w : world) :
  store w = Some empty_frame ->
  data_management i w =
  Some (tt, mkWorld (objects w) (session_data w) (container_data_csv w)
                    (screen w ++ [st_info "No data available to manage."])%list).
Proof.
  intros Hd. unfold data_management. unfold bind at 1.
  now rewrite (get_data_store w _ Hd).
Qed.

(** X2. A session that starts with no table and no file gets the empty
    table, and its first run ends: with the empty table and still no file,
    or, after an accepted submission, with the submitted record alone in the
    table and in the file. *)
Theorem X2_first_run_without_file (i : widgets) (w : world) :
  session_data w = None -> container_data_csv w = None ->
  exists w',
    run_script i w = Some (tt, w') /\
    ((store w' = Some empty_frame /\ container_data_csv w' = None) \/
     (accepted i /\ store w' = Some (new_record i) /\
      container_data_csv w' = Some (Csv.to_csv (new_record i)))).
Proof.
  intros Hs Hf.
  assert (Hl : loaded_data w = Some empty_frame).
  { unfold loaded_data. now rewrite Hf, Hs. }
  destruct (prologue_total w _ Hl) as [w1 Hp].
  destruct (prologue_effect w w1 Hp) as (Hs1 & Hf1 & _ & _).
  rewrite Hl in Hs1. rewrite run_script_prologue, Hp.
  destruct (menu i) eqn:Em.
  4: { unfold branch. rewrite Em, (data_management_empty i w1 Hs1).
       eexists. split; [reflexivity |]. left.
       split; [| cbn; congruence].
       destruct w1 as [h s c scr]. rewrite <- Hs1. apply store_irrel. }
  all: destruct (branch_effect i w1 empty_frame Hs1)
         as [(_ & Hne & _) | (w' & Hb & _ & Hcase)]; [now elim Hne |];
    exists w'; (split; [exact Hb |]);
    destruct Hcase as [[S (_ & U & _)] | [(_ & S & F & A) | (_ & _ & M)]];
    [ left; split; [exact S | congruence]
    | right; split; [exact A | split; [exact S | exact F]]
    | congruence ].
Qed.

Lemma X2_first_run_without_file_witness :
  session_data fresh = None /\ container_data_csv fresh = None /\
  exists w', run_script Sample.stats_visit fresh = Some (tt, w').
Proof.
  split; [reflexivity |]. split; [reflexivity |].
  destruct (X2_first_run_without_file Sample.stats_visit fresh eq_refl eq_refl)
    as (w' & H & _).
  exists w'. exact H.
Defined.

(** X3. When the file exists, a run that ends has read it, and its outcome
    is that of the file's table, whatever table the session held before: the
    file's table, or that table with the submitted record appended, or the
    empty table after a clear. *)
Theorem X3_file_replaces_session_table (i : widgets) (w w' : world) (f : Csv.file) :
  container_data_csv w = Some f ->
  run_script i w = Some (tt, w') ->
  exists df,
    Csv.read_csv f = Some df /\
    (store w' = Some df \/
     (accepted i /\ store w' = Some (df ++ new_record i)%list) \/
     (menu i = DataManagement /\ store w' = Some empty_frame)).
Proof.
  intros Hf. rewrite run_script_prologue.
  destruct (prologue w) as [[[] w1] |] eqn:Hp; [| discriminate].
  destruct (prologue_reads_file w w1 f Hf Hp) as (df & Hr & Hs1).
  intros Hb. exists df. split; [exact Hr |].
  destruct (branch_effect i w1 df Hs1)
    as [(_ & _ & Hnone) | (w'' & Hb' & _ & Hcase)]; [congruence |].
  rewrite Hb in Hb'. injection Hb' as <-.
  destruct Hcase as [[S _] | [(-> & S & _ & A) | (S & _ & M)]]; auto.
Qed.

Lemma stats_visit_yard_run :
  {w' | run_script Sample.stats_visit Sample.yard_world = Some (tt, w')}.
Proof. eexists. vm_compute. reflexivity. Defined.

Lemma X3_file_replaces_session_table_witness :
  container_data_csv Sample.yard_world = Some (Csv.to_csv Sample.yard) /\
  exists df, Csv.read_csv (Csv.to_csv Sample.yard) = Some df.
Proof.
  split; [reflexivity |].
  destruct stats_visit_yard_run as (w' & H).
  destruct (X3_file_replaces_session_table Sample.stats_visit Sample.yard_world w'
              (Csv.to_csv Sample.yard) eq_refl H) as (df & Hr & _).
  exists df. exact Hr.
Defined.





End Runs.

(** ** The pages *)

Section Pages.

Lemma is_current_ordinal (now : datetime) (r : ContainerRecord) :
  valid_datetime now = true ->
  is_current now r =
  match delivery_date r with
  | None => true
  | Some d => toordinal (dt_date now) <? toordinal d
  end.
Proof.
  intros V. unfold is_current.
  destruct (delivery_date r); [now apply timestamp_ltb | reflexivity].
Qed.

(** X8. The current containers, and with them the whole table of
    suggestions, depend on the date of the clock and not on the time of
    day; a container whose delivery date is the current date is no current
    container at any time of that day. *)
Theorem X8_time_of_day_irrelevant (n1 n2 : datetime) (df : DataFrame) :
  valid_datetime n1 = true -> valid_datetime n2 = true ->
  dt_date n1 = dt_date n2 ->
  current_containers n1 df = current_containers n2 df /\
  suggestions n1 df = suggestions n2 df /\
  (forall r, delivery_date r = Some (dt_date n1) ->
             ~ In r (current_containers n1 df)).
Proof.
  intros V1 V2 E.
  assert (C : current_containers n1 df = current_containers n2 df).
  { unfold current_containers. apply filter_ext. intros r.
    rewrite (is_current_ordinal n1 r V1), (is_current_ordinal n2 r V2).
    now rewrite E. }
  split; [exact C |]. split.
  - unfold suggestions. now rewrite C.
  - intros r Hr Hin. unfold current_containers in Hin.
    apply filter_In in Hin. destruct Hin as [_ Hc].
    rewrite (is_current_ordinal n1 r V1), Hr in Hc.
    apply Z.ltb_lt in Hc. lia.
Qed.

Lemma X8_time_of_day_irrelevant_witness :
  valid_datetime Sample.now = true /\
  valid_datetime (mkDatetime (mkDate 2024 6 1) 0) = true /\
  suggestions Sample.now Sample.yard =
  suggestions (mkDatetime (mkDate 2024 6 1) 0) Sample.yard.
Proof.
  split; [reflexivity |]. split; [reflexivity |].
  exact (proj1 (proj2 (X8_time_of_day_irrelevant Sample.now
           (mkDatetime (mkDate 2024 6 1) 0) Sample.yard eq_refl eq_refl eq_refl))).
Defined.



(** X10. A container whose record has no customer name gets no mean and the
    upper level, whatever its own days_to_deliver; a container with a
    customer name gets the mean that the statistics table shows for that
    customer. *)
Theorem X10_pages_agree_on_means (now : datetime) (df : DataFrame) (p : PlacementRow) :
  In p (suggestions now df) ->
  match customer_name (row p) with
  | None => customer_avg_delivery p = None /\
            placement p = "Upper Level (Long-term Storage)"
  | Some k => exists s, In s (customer_stats df) /\
                        stats_customer_name s = k /\
                        avg_delivery_days s = customer_avg_delivery p
  end.
Proof.
  rewrite suggestions_rows, in_map_iff. intros (r & <- & Hr).
  cbn [row customer_avg_delivery placement].
  unfold merged_mean. destruct (customer_name r) as [k |] eqn:Ek.
  - exists (mkStats k (mean (map days_to_deliver (filter (name_is k) df)))
                     (count (map days_to_deliver (filter (name_is k) df)))).
    split; [| split; reflexivity].
    apply In_customer_stats. exists k. split; [| reflexivity].
    apply In_group_keys. exists r. split; [| exact Ek].
    unfold current_containers in Hr. now apply filter_In in Hr.
  - split; reflexivity.
Qed.

Lemma X10_pages_agree_on_means_witness :
  In (mkPlacement Sample.bolt_b2 (Some (10 # 2)) UPPER)
     (suggestions Sample.now Sample.yard) /\
  exists s, In s (customer_stats Sample.yard) /\
            stats_customer_name s = "Bolt" /\
            avg_delivery_days s = Some (10 # 2).
Proof.
  assert (H : In (mkPlacement Sample.bolt_b2 (Some (10 # 2)) UPPER)
                 (suggestions Sample.now Sample.yard)).
  { vm_compute. right. left. reflexivity. }
  split; [exact H |].
  exact (X10_pages_agree_on_means Sample.now Sample.yard _ H).
Defined.

(** X11. The statistics table of any table of records: its customer names
    are distinct and are exactly the names that occur in the records; it has
    as many rows as there are distinct names; each row holds the mean of the
    customer's days_to_deliver values that are present and, as record_count,
    the number of those values; and the rows are in ascending order of mean,
    rows with an undefined mean last. *)
Theorem X11_statistics_table (df : DataFrame) :
  NoDup (map stats_customer_name (customer_stats df)) /\
  (forall k, In k (map stats_customer_name (customer_stats df)) <->
             exists r, In r df /\ customer_name r = Some k) /\
  List.length (customer_stats df) =
    List.length (nodup string_dec (customer_names df)) /\
  (forall s, In s (customer_stats df) ->
     Spec.same_mean (avg_delivery_days s)
                    (Spec.historical_mean df (stats_customer_name s)) /\
     record_count s =
       Z.of_nat (List.length
                   (Spec.present_days (Spec.records_of df (stats_customer_name s))))) /\
  Sorted (fun a b => Spec.mean_le (avg_delivery_days a) (avg_delivery_days b))
         (customer_stats df).
Proof. exact (customer_stats_rows df). Qed.



(** X13. The placement page of a store in which every record has a
    delivery date that is not after the current date shows one message and
    no table: the warning of the empty store when there is no record, and
    otherwise the note that no container is active.  The store stays as it
    was. *)
Theorem X13_no_active_containers (i : widgets) (w : world) (df : DataFrame) :
  store w = Some df ->
  valid_datetime (today i) = true ->
  forallb valid_dates df = true ->
  (forall r, In r df ->
     exists d, delivery_date r = Some d /\
               Spec.date_ltb (dt_date (today i)) d = false) ->
  exists w',
    container_placement_suggestions i w = Some (tt, w') /\
    screen w' =
      (screen w ++
       [match df with
        | [] => st_warning "No data available. Please add records first."
        | _ :: _ => st_info "No active containers in the yard currently."
        end])%list /\
    store w' = Some df.
Proof.
  intros Hd Vn Vdf Hall.
  assert (Hcur : current_containers (today i) df = []).
  { unfold current_containers.
    assert (G : forall rows, incl rows df -> forallb valid_dates rows = true ->
                             filter (is_current (today i)) rows = []).
    { induction rows as [| r rows IH]; intros Hi Vr; [reflexivity |].
      cbn [forallb] in Vr. apply andb_true_iff in Vr. destruct Vr as [Vr1 Vr2].
      cbn [filter]. rewrite (is_current_spec (today i) r Vn Vr1).
      destruct (Hall r (Hi r (or_introl eq_refl))) as (d & Ed & Hlt).
      unfold Spec.absent_or_future. rewrite Ed, Hlt.
      apply IH; [| exact Vr2]. intros x Hx. apply Hi. now right. }
    apply G; [apply incl_refl | exact Vdf]. }
  unfold container_placement_suggestions. unfold bind at 1.
  rewrite (get_data_store w df Hd).
  destruct w as [h s c scr0].
  cbn [objects session_data container_data_csv screen].
  destruct df as [| r df]; cbn [empty].
  - unfold show. cbn [objects session_data container_data_csv screen].
    eexists. split; [reflexivity |]. split; [reflexivity |].
    rewrite <- Hd. apply store_irrel.
  - rewrite Hcur. unfold bind, new_frame, show.
    cbn [objects session_data container_data_csv screen empty].
    eexists. split; [reflexivity |]. split; [reflexivity |].
    now apply (store_extends h [Records []] s c c scr0).
Qed.

Lemma X13_no_active_containers_witness :
  store (mkWorld [Records [Sample.acme_c1]] (Some 0%nat) None []) =
    Some [Sample.acme_c1] /\
  exists w',
    container_placement_suggestions Sample.stats_visit
      (mkWorld [Records [Sample.acme_c1]] (Some 0%nat) None []) = Some (tt, w') /\
    screen w' = [st_info "No active containers in the yard currently."].
Proof.
  assert (H : store (mkWorld [Records [Sample.acme_c1]] (Some 0%nat) None []) =
              Some [Sample.acme_c1]) by reflexivity.
  split; [exact H |].
  assert (A : forall r, In r [Sample.acme_c1] ->
     exists d, delivery_date r = Some d /\
               Spec.date_ltb (dt_date (today Sample.stats_visit)) d = false).
  { intros r [<- | []]. eexists. split; reflexivity. }
  destruct (X13_no_active_containers Sample.stats_visit _ _ H eq_refl eq_refl A)
    as (w' & H1 & H2 & _).
  exists w'. split; [exact H1 | exact H2].
Defined.



(** X15. The days_to_deliver of a submitted record follows the calendar:
    it is negative exactly when the delivery date is before the arrival
    date (which the form accepts), positive exactly when it is after, zero
    exactly when the two are the same day, and 1 when the delivery date is
    the day after the arrival. *)
Theorem X15_days_follow_the_calendar (i : widgets) :
  valid_widgets i = true ->
  exists z,
    map days_to_deliver (new_record i) = [Some z] /\
    (z <? 0) = Spec.date_ltb (delivery_date_input i) (arrival_date_input i) /\
    (0 <? z) = Spec.date_ltb (arrival_date_input i) (delivery_date_input i) /\
    (z = 0 <-> delivery_date_input i = arrival_date_input i) /\
    (delivery_date_input i = Spec.next_day (arrival_date_input i) -> z = 1).
Proof.
  unfold valid_widgets. rewrite andb_true_iff. intros [Va Vd].
  exists (sub_days (delivery_date_input i) (arrival_date_input i)).
  split; [reflexivity |]. unfold sub_days.
  pose proof (toordinal_ltb _ _ Vd Va) as L1.
  pose proof (toordinal_ltb _ _ Va Vd) as L2.
  split; [| split; [| split]].
  - rewrite <- L1. destruct (Z.ltb_spec (toordinal (delivery_date_input i))
                                         (toordinal (arrival_date_input i)));
      [apply Z.ltb_lt | apply Z.ltb_ge]; lia.
  - rewrite <- L2. destruct (Z.ltb_spec (toordinal (arrival_date_input i))
                                         (toordinal (delivery_date_input i)));
      [apply Z.ltb_lt | apply Z.ltb_ge]; lia.
  - split.
    + intros Hz. apply date_ltb_trichotomy.
      * rewrite <- L1. apply Z.ltb_ge. lia.
      * rewrite <- L2. apply Z.ltb_ge. lia.
    + intros ->. lia.
  - intros ->. rewrite toordinal_next_day by exact Va. lia.
Qed.

Lemma X15_days_follow_the_calendar_witness :
  valid_widgets Sample.acme_form = true /\
  exists z, map days_to_deliver (new_record Sample.acme_form) = [Some z] /\
            (0 <? z) = true.
Proof.
  split; [reflexivity |].
  destruct (X15_days_follow_the_calendar Sample.acme_form eq_refl)
    as (z & H1 & _ & H2 & _).
  exists z. split; [exact H1 |]. rewrite H2. reflexivity.
Defined.

End Pages.
